(** * A shallow embedding of the trading-simulation engine (engine.py)

    The development follows the Python module class by class:
    [MarketDataQuery], [PriceBar], [TradeOrder] with its subclasses
    [MarketOrder] and [LimitOrder], [OrderReceipt] and
    [MockBrokerConnector].

    Conventions of the embedding.
    - A Python number is an [int] of any size or a binary64 [float]; floats
      are the [spec_float] values of the Standard Library and their
      arithmetic is the IEEE arithmetic specified there (round to nearest,
      ties to even).  Mixing an int with a float converts the int, which
      raises [OverflowError] when it is too large.
    - The prices of the synthetic tables, [100 + i*0.5], are kept as exact
      rationals: each is exactly representable in binary64 for every index
      below 2^53.
    - Strings are ASCII text, on which [upper] and [lower] are
      [str.upper] and [str.lower].
    - A Python exception is a value of [exn]; a call that may raise returns
      a [result].
    - Objects that are mutated in place and shared by reference (orders)
      live in a heap indexed by their identity [id(order)].
    - Wall-clock readings ([datetime.now()]) are explicit arguments, and
      the library calls ([strptime], [pd.date_range], [yf.download]) are
      parameters, which may themselves raise. *)

From stdpp Require Import gmap strings list numbers.
From Stdlib Require Import QArith Qcanon Ascii String.
From Stdlib Require Import Floats.SpecFloat.

Local Open Scope string_scope.
Local Open Scope Qc_scope.

(** ** Exceptions and results *)

Inductive exn : Type :=
| ValueError (msg : string)
| TypeError
| AttributeError
| ImportError (msg : string)
| OverflowError.

Inductive result (A : Type) : Type :=
| Return (a : A)
| Raise (e : exn).
Arguments Return {A} a.
Arguments Raise {A} e.

(** Sequencing: an exception raised by the first computation propagates. *)
Definition bind {A B : Type} (r : result A) (k : A -> result B) : result B :=
  match r with
  | Return a => k a
  | Raise e => Raise e
  end.

Notation "'let*' x ':=' r 'in' k" := (bind r (fun x => k))
  (at level 10, x name, r at level 100, k at level 200).

(** ** Numbers *)

(** Binary64: 53 bits of precision, infinities at exponent 1024. *)
Definition prec : Z := 53.
Definition emax : Z := 1024.

(** A Python number. *)
Inductive num : Type :=
| PyInt (z : Z)
| PyFloat (f : spec_float).

(** The float nearest to an integer, [float(z)] without the overflow check;
    for [|z| < 2^53] it is [z] itself. *)
Definition float_of_Z (z : Z) : spec_float := binary_normalize prec emax z 0 false.

(** The literals [z] and [z.0]. *)
Definition int (z : Z) : num := PyInt z.
Definition float (z : Z) : num := PyFloat (float_of_Z z).

(** The exact literal [0.5] of the synthetic tables. *)
Definition half : Qc := Q2Qc (1 # 2).

(** *** Comparison

    Python compares numbers by their exact values, also an int with a
    float; a NaN has no value and compares false with everything. *)

Inductive ext : Type :=
| NegInf
| Finite (q : Qc)
| PosInf.

Definition pow2 (e : Z) : Qc :=
  if (0 <=? e)%Z then Qc_of_Z (2 ^ e) else / Qc_of_Z (2 ^ (- e)).

Definition float_value (f : spec_float) : option ext :=
  match f with
  | S754_nan => None
  | S754_zero _ => Some (Finite 0)
  | S754_infinity s => Some (if s then NegInf else PosInf)
  | S754_finite s m e =>
      Some (Finite (Qc_of_Z (if s then Zneg m else Zpos m) * pow2 e))
  end.

Definition value (x : num) : option ext :=
  match x with
  | PyInt z => Some (Finite (Qc_of_Z z))
  | PyFloat f => float_value f
  end.

Definition ext_le (x y : ext) : Prop :=
  match x, y with
  | NegInf, _ => True
  | _, PosInf => True
  | Finite a, Finite b => a ≤ b
  | _, _ => False
  end.

Definition ext_leb (x y : ext) : bool :=
  match x, y with
  | NegInf, _ => true
  | _, PosInf => true
  | Finite a, Finite b => bool_decide (a ≤ b)
  | _, _ => false
  end.

(** The order of numbers: both have a value, and the values are in order. *)
Definition num_leq (a b : num) : Prop :=
  exists x y : ext, value a = Some x /\ value b = Some y /\ ext_le x y.

Declare Scope num_scope.
Delimit Scope num_scope with num.
Bind Scope num_scope with num.
Infix "≤" := num_leq : num_scope.
Local Open Scope num_scope.

(** [a <= b] and [a >= b] on numbers. *)
Definition num_le (a b : num) : bool :=
  match value a, value b with
  | Some x, Some y => ext_leb x y
  | _, _ => false
  end.

Definition num_ge (a b : num) : bool := num_le b a.

(** [a < b] and [a == b] on numbers. *)
Definition num_lt (a b : num) : bool :=
  match value a, value b with
  | Some x, Some y => ext_leb x y && negb (ext_leb y x)
  | _, _ => false
  end.

Definition num_eqb (a b : num) : bool :=
  match value a, value b with
  | Some x, Some y => ext_leb x y && ext_leb y x
  | _, _ => false
  end.

(** *** Arithmetic *)

(** [float(z)]: the conversion of an int that a mixed operation performs. *)
Definition to_float (z : Z) : result spec_float :=
  match float_of_Z z with
  | S754_infinity _ => Raise OverflowError
  | f => Return f
  end.

Definition as_float (x : num) : result spec_float :=
  match x with
  | PyInt z => to_float z
  | PyFloat f => Return f
  end.

(** A binary operation: exact on two ints, otherwise the float operation
    on the operands as floats. *)
Definition arith (iop : Z -> Z -> Z)
    (fop : spec_float -> spec_float -> spec_float) (a b : num) : result num :=
  match a, b with
  | PyInt x, PyInt y => Return (PyInt (iop x y))
  | _, _ =>
      let* x := as_float a in
      let* y := as_float b in
      Return (PyFloat (fop x y))
  end.

(** [a + b], [a - b] and [a * b] *)
Definition py_add : num -> num -> result num := arith Z.add (SFadd prec emax).
Definition py_sub : num -> num -> result num := arith Z.sub (SFsub prec emax).
Definition py_mul : num -> num -> result num := arith Z.mul (SFmul prec emax).

(** [a and b] where evaluating [b] may raise: [b] is only looked at when
    [a] is true. *)
Definition py_and (a : bool) (b : result bool) : result bool :=
  if a then b else Return false.

(** Comparisons and products whose right or left operand may be [None]:
    Python raises [TypeError] there. *)
Definition le_opt (a : num) (b : option num) : result bool :=
  match b with
  | Some b => Return (num_le a b)
  | None => Raise TypeError
  end.

Definition ge_opt (a : num) (b : option num) : result bool :=
  match b with
  | Some b => Return (num_ge a b)
  | None => Raise TypeError
  end.

Definition mul_opt (a : option num) (b : num) : result num :=
  match a with
  | Some a => py_mul a b
  | None => Raise TypeError
  end.

(** ** Strings: [str.upper] and [str.lower] on ASCII text *)

Definition upper_ascii (c : ascii) : ascii :=
  let n := nat_of_ascii c in
  if (97 <=? n)%nat && (n <=? 122)%nat then ascii_of_nat (n - 32) else c.

Definition lower_ascii (c : ascii) : ascii :=
  let n := nat_of_ascii c in
  if (65 <=? n)%nat && (n <=? 90)%nat then ascii_of_nat (n + 32) else c.

Fixpoint upper (s : string) : string :=
  match s with
  | EmptyString => EmptyString
  | String c s' => String (upper_ascii c) (upper s')
  end.

Fixpoint lower (s : string) : string :=
  match s with
  | EmptyString => EmptyString
  | String c s' => String (lower_ascii c) (lower s')
  end.

(** ** datetime *)

Module datetime.

(** A naive [datetime.datetime]. *)
Record t : Type := mk {
  year : Z; month : Z; day : Z;
  hour : Z; minute : Z; second : Z; microsecond : Z
}.

Definition lex (c d : comparison) : comparison :=
  match c with
  | Eq => d
  | _ => c
  end.

(** Naive datetimes compare field by field, most significant first. *)
Definition compare (a b : t) : comparison :=
  lex (year a ?= year b)%Z
 (lex (month a ?= month b)%Z
 (lex (day a ?= day b)%Z
 (lex (hour a ?= hour b)%Z
 (lex (minute a ?= minute b)%Z
 (lex (second a ?= second b)%Z
      (microsecond a ?= microsecond b)%Z))))).

(** [a > b] and [a <= b] *)
Definition gt (a b : t) : bool :=
  match compare a b with
  | Gt => true
  | _ => false
  end.

Definition le (a b : t) : bool :=
  match compare a b with
  | Gt => false
  | _ => true
  end.

End datetime.

(** ** MarketDataQuery *)

(** The table built by [pd.DataFrame({'date': dates, 'price': prices})]:
    two columns of the same length, in row order. *)
Record DataFrame : Type := mkDataFrame {
  date : list datetime.t;
  price : list Qc
}.

Module MarketDataQuery.

Record t : Type := mk {
  symbol : string;
  time_frame : string;
  start_date : datetime.t;
  end_date : datetime.t;
  frequency : string;
  source : string
}.

Definition valid_frequencies : list string :=
  ["1m"; "2m"; "5m"; "15m"; "30m"; "60m"; "90m"; "1h"; "1d"; "5d"; "1wk"; "1mo"; "3mo"].

(** [in] on a list of strings *)
Definition str_in (x : string) (l : list string) : bool :=
  existsb (String.eqb x) l.

(** [repr] of a list of plain strings, as [format] prints it. *)
Fixpoint repr_items (l : list string) : string :=
  match l with
  | [] => ""
  | [x] => "'" ++ x ++ "'"
  | x :: l' => "'" ++ x ++ "', " ++ repr_items l'
  end.

Definition repr_list (l : list string) : string := "[" ++ repr_items l ++ "]".

(** [MarketDataQuery._validate] *)
Definition _validate (self : t) : result unit :=
  if datetime.gt (start_date self) (end_date self) then
    Raise (ValueError "Start date must be before end date")
  else if negb (str_in (frequency self) valid_frequencies) then
    Raise (ValueError ("Frequency must be one of " ++ repr_list valid_frequencies))
  else Return tt.

(** The dictionary of pandas aliases in [fetch]. *)
Definition freq_map : gmap string string :=
  list_to_map
    [("1m", "T"); ("2m", "2T"); ("5m", "5T"); ("15m", "15T"); ("30m", "30T");
     ("60m", "60T"); ("90m", "90T"); ("1h", "H"); ("1d", "D"); ("5d", "5D");
     ("1wk", "W"); ("1mo", "MS"); ("3mo", "3MS")].

(** [[100 + i*0.5 for i in range(n)]] *)
Definition synthetic_prices (n : nat) : list Qc :=
  (fun i : nat => Qc_of_Z 100 + Qc_of_Z (Z.of_nat i) * half) <$> seq 0 n.

Section Libraries.

(** The library calls of the class; each may raise.
    - [strptime s fmt] is [datetime.datetime.strptime(s, fmt)].
    - [date_range start end freq] is the sequence of timestamps of
      [pd.date_range(start=start, end=end, freq=freq)].
    - [frame] is the type of the provider's tables and [yahoo] stands
      for the [yf.download(...)] call followed by [reset_index], with
      [None] when the [yfinance] import failed. *)
Variable strptime : string -> string -> result datetime.t.
Variable date_range : datetime.t -> datetime.t -> string -> result (list datetime.t).
Variable frame : Type.
Variable yahoo : option (t -> result frame).

(** [MarketDataQuery.__init__] *)
Definition init (symbol time_frame start_date end_date frequency source : string)
    : result t :=
  let* start_date := strptime start_date "%Y-%m-%d" in
  let* end_date := strptime end_date "%Y-%m-%d" in
  let self := mk symbol time_frame start_date end_date frequency source in
  let* _ := _validate self in
  Return self.

(** The table built from the calendar sequence [dates] at the end of the
    test branch of [fetch]. *)
Definition test_table (self : t) (dates : list datetime.t) : DataFrame :=
  let dates :=
    if (List.length dates =? 0)%nat && datetime.le (start_date self) (end_date self)
    then [start_date self] else dates in
  let prices := synthetic_prices (List.length dates) in
  mkDataFrame dates prices.

(** [MarketDataQuery.fetch]: the synthetic table of the test source, or
    the provider's table. *)
Definition fetch (self : t) : result (DataFrame + frame) :=
  if String.eqb (source self) "test" then
    match freq_map !! frequency self with
    | None | Some "" =>
        Raise (ValueError "Test source does not support frequency: {self.frequency}")
    | Some pd_freq =>
        let* dates := date_range (start_date self) (end_date self) pd_freq in
        Return (inl (test_table self dates))
    end
  else if String.eqb (source self) "yahoo" then
    match yahoo with
    | None => Raise (ImportError "yfinance is not installed. Cannot use 'yahoo' source.")
    | Some download =>
        let* df := download self in
        Return (inr df)
    end
  else Raise (ValueError ("Unknown source: " ++ source self)).

End Libraries.

End MarketDataQuery.

(** ** PriceBar *)

Module PriceBar.

Record t : Type := mk {
  date : string;
  open : num;
  close : num;
  high : num;
  low : num;
  volume : num
}.

(** [PriceBar.is_bullish] *)
Definition is_bullish (self : t) : bool := num_lt (open self) (close self).

(** [PriceBar.is_bearish]: [self.open > self.close] *)
Definition is_bearish (self : t) : bool := num_lt (close self) (open self).

End PriceBar.

(** ** TradeOrder, MarketOrder, LimitOrder *)

(** The three values the [status] attribute takes:
    'pending', 'filled', 'cancelled'. *)
Inductive order_status : Type := pending | filled | cancelled.

Global Instance order_status_eq_dec : EqDecision order_status.
Proof. solve_decision. Defined.

(** The dynamic class of an order object; it selects the [execute] method.
    The base class has none. *)
Inductive order_class : Type := TradeOrder_cls | MarketOrder_cls | LimitOrder_cls.

Global Instance order_class_eq_dec : EqDecision order_class.
Proof. solve_decision. Defined.

Module TradeOrder.

Record t : Type := mk {
  cls : order_class;
  symbol : string;
  side : string;
  quantity : num;
  order_type : string;
  price : option num;
  timestamp : string;
  status : order_status
}.

Definition set_status (self : t) (s : order_status) : t :=
  mk (cls self) (symbol self) (side self) (quantity self) (order_type self)
     (price self) (timestamp self) s.

Definition set_price (self : t) (p : option num) : t :=
  mk (cls self) (symbol self) (side self) (quantity self) (order_type self)
     p (timestamp self) (status self).

(** [TradeOrder.__init__]; [now] is the formatted wall-clock time. *)
Definition init (c : order_class) (symbol side : string) (quantity : num)
    (order_type : string) (price : option num) (now : string) : t :=
  mk c (upper symbol) (upper side) quantity (lower order_type) price now pending.

(** [MarketOrder.__init__] *)
Definition MarketOrder (symbol side : string) (quantity : num) (now : string) : t :=
  init MarketOrder_cls symbol side quantity "market" None now.

(** [LimitOrder.__init__] *)
Definition LimitOrder (symbol side : string) (quantity limit_price : num)
    (now : string) : t :=
  init LimitOrder_cls symbol side quantity "limit" (Some limit_price) now.

(** [TradeOrder.cancel] *)
Definition cancel (self : t) : t :=
  if decide (status self = pending) then set_status self cancelled else self.

(** [MarketOrder.execute] *)
Definition MarketOrder_execute (self : t) (market_price : num) : result t :=
  let self := set_price self (Some market_price) in
  Return (set_status self filled).

(** [LimitOrder.execute] *)
Definition LimitOrder_execute (self : t) (market_price : num) : result t :=
  let* c := py_and (String.eqb (side self) "BUY") (le_opt market_price (price self)) in
  if c then Return (set_status self filled)
  else
    let* c := py_and (String.eqb (side self) "SELL") (ge_opt market_price (price self)) in
    if c then Return (set_status self filled)
    else Return self.

(** [order.execute(market_price)]: method lookup on the object's class.
    The base class defines no [execute], so the lookup raises. *)
Definition execute (self : t) (market_price : num) : result t :=
  match cls self with
  | TradeOrder_cls => Raise AttributeError
  | MarketOrder_cls => MarketOrder_execute self market_price
  | LimitOrder_cls => LimitOrder_execute self market_price
  end.

End TradeOrder.

(** ** OrderReceipt *)

(** Object identities, the values of [id(order)]. *)
Abbreviation oid := nat (only parsing).

Module OrderReceipt.

Record t : Type := mk {
  order_id : oid;
  symbol : string;
  side : string;
  original_quantity : num;
  executed_quantity : num;
  executed_price : option num;
  timestamp : string;
  status : order_status
}.

(** [OrderReceipt.__init__]; [id_order] is [id(order)]. *)
Definition init (symbol side : string) (id_order : oid) (order : TradeOrder.t)
    (timestamp : string) (executed_price : option num)
    (executed_quantity : num) (status : order_status) : t :=
  mk id_order (upper symbol) (upper side) (TradeOrder.quantity order)
     executed_quantity executed_price timestamp status.

End OrderReceipt.

(** ** MockBrokerConnector *)

Module MockBrokerConnector.

Record t : Type := mk {
  cash_balance : num;
  positions : gmap string num;
  order_history : list oid;
  current_market_price : num
}.

(** [MockBrokerConnector.__init__] *)
Definition init : t := mk (float 100000) ∅ [] (float 100).

(** [self.positions.get(symbol, 0)] *)
Definition get_position (self : t) (sym : string) : num :=
  default (int 0) (positions self !! sym).

(** The assignments [self.cash_balance = ...] and
    [self.positions[symbol] = ...]. *)
Definition set_cash_balance (self : t) (cash : num) : t :=
  mk cash (positions self) (order_history self) (current_market_price self).

Definition set_position (self : t) (sym : string) (q : num) : t :=
  mk (cash_balance self) (<[sym := q]> (positions self)) (order_history self)
     (current_market_price self).

(** The three statements of a branch of [submitOrder], run on the
    broker one after the other: the product [order.price * order.quantity],
    the cash update with [cash_op] and the position update with [pos_op].
    The first component is the broker as the statements leave it, also when
    one of them raises. *)
Definition book (cash_op pos_op : num -> num -> result num)
    (self : t) (order : TradeOrder.t) : t * result unit :=
  match mul_opt (TradeOrder.price order) (TradeOrder.quantity order) with
  | Raise e => (self, Raise e)
  | Return amount =>
      match cash_op (cash_balance self) amount with
      | Raise e => (self, Raise e)
      | Return cash =>
          let self := set_cash_balance self cash in
          match pos_op (get_position self (TradeOrder.symbol order))
                       (TradeOrder.quantity order) with
          | Raise e => (self, Raise e)
          | Return q => (set_position self (TradeOrder.symbol order) q, Return tt)
          end
      end
  end.

(** The body of [if order.status == 'filled': ...] in [submitOrder]. *)
Definition settle (self : t) (order : TradeOrder.t) : t * result unit :=
  if decide (TradeOrder.status order = filled) then
    if String.eqb (TradeOrder.side order) "BUY" then book py_sub py_add self order
    else if String.eqb (TradeOrder.side order) "SELL" then book py_add py_sub self order
    else (self, Return tt)
  else (self, Return tt).

(** The receipt built at the end of [submitOrder]. *)
Definition receipt_of (id_order : oid) (order : TradeOrder.t) (now : string)
    : OrderReceipt.t :=
  let is_filled := bool_decide (TradeOrder.status order = filled) in
  OrderReceipt.init (TradeOrder.symbol order) (TradeOrder.side order)
    id_order order now
    (if is_filled then TradeOrder.price order else None)
    (if is_filled then TradeOrder.quantity order else int 0)
    (TradeOrder.status order).

(** [submitOrder] on the broker and on the state of the order object
    whose identity is [id_order].  The first two components are the broker
    and the order as the call leaves them, also when it raises; [now] is
    the time read for the receipt. *)
Definition submitOrder (self : t) (id_order : oid) (order : TradeOrder.t)
    (now : string) : t * TradeOrder.t * result OrderReceipt.t :=
  match TradeOrder.execute order (current_market_price self) with
  | Raise e => (self, order, Raise e)
  | Return order =>
      let self := mk (cash_balance self) (positions self)
                     (order_history self ++ [id_order])
                     (current_market_price self) in
      match settle self order with
      | (self, Raise e) => (self, order, Raise e)
      | (self, Return _) => (self, order, Return (receipt_of id_order order now))
      end
  end.

(** The table of [getMarketData]: columns date, symbol and price. *)
Record MarketData : Type := mkMarketData {
  md_date : list datetime.t;
  md_symbol : list string;
  md_price : list Qc
}.

Section MarketData.

(** [pd.date_range(start=..., end=..., freq=...)] on the caller's arguments,
    whatever their type [D] (strings or datetimes); it may raise. *)
Variable D : Type.
Variable date_range : D -> D -> string -> result (list datetime.t).

(** [MockBrokerConnector.getMarketData]; the scalar [symbol] fills its
    column. *)
Definition getMarketData (self : t) (symbol : string) (start_date end_date : D)
    : result MarketData :=
  let* dates := date_range start_date end_date "D" in
  let prices :=
    (fun i : nat => Qc_of_Z 100 + Qc_of_Z (Z.of_nat i) * half)
      <$> seq 0 (List.length dates) in
  Return (mkMarketData dates (replicate (List.length dates) symbol) prices).

End MarketData.

(** The dictionary returned by [getAccountInfo]. *)
Record AccountInfo : Type := mkAccountInfo {
  info_cash_balance : num;
  info_positions : gmap string num;
  info_order_history : list oid
}.

(** [MockBrokerConnector.getAccountInfo] *)
Definition getAccountInfo (self : t) : AccountInfo :=
  mkAccountInfo (cash_balance self) (positions self) (order_history self).

End MockBrokerConnector.

(** ** The object heap: orders shared by reference *)

Record world : Type := mkWorld {
  heap : gmap oid TradeOrder.t;
  broker : MockBrokerConnector.t
}.

(** [broker.submitOrder(order)] where [order] is the object at [o] in the
    heap; [None] only for a dangling reference, which Python cannot form. *)
Definition submit (w : world) (o : oid) (now : string)
    : option (world * result OrderReceipt.t) :=
  match heap w !! o with
  | None => None
  | Some order =>
      let '(b, order', r) := MockBrokerConnector.submitOrder (broker w) o order now in
      Some (mkWorld (<[o := order']> (heap w)) b, r)
  end.

(** A run of [submitOrder] calls, each with the order reference and the time
    it reads; the receipts (or exceptions) are collected in call order. *)
Fixpoint submit_all (w : world) (calls : list (oid * string))
    : option (world * list (result OrderReceipt.t)) :=
  match calls with
  | [] => Some (w, [])
  | (o, now) :: calls =>
      match submit w o now with
      | None => None
      | Some (w', r) =>
          match submit_all w' calls with
          | None => None
          | Some (w'', rs) => Some (w'', r :: rs)
          end
      end
  end.

(** ** Library calls, instantiated for running the examples

    [Calendar.strptime] reads the format ['%Y-%m-%d'] the way the standard
    library does (four-digit year, month and day with an optional leading
    zero, a valid calendar date); the text of its error messages is
    abbreviated.  [Calendar.date_range] is [pd.date_range] for the thirteen
    aliases of [fetch]: fixed steps of minutes, hours and days from the
    start, weeks on Sundays (['W']) and month starts (['MS'], ['3MS']), up
    to and including the end.  [Calendar.date_range_strict] is the same
    for a pandas that no longer accepts the aliases in ['T'] and ['H'] and
    raises ValueError on them (its message is abbreviated too). *)

Module Calendar.

Definition is_leap (y : Z) : bool :=
  ((y mod 4 =? 0) && (negb (y mod 100 =? 0) || (y mod 400 =? 0)))%Z.

Definition days_in_month (y m : Z) : Z :=
  if (m =? 2)%Z then (if is_leap y then 29 else 28)%Z
  else if ((m =? 4) || (m =? 6) || (m =? 9) || (m =? 11))%Z then 30%Z
  else 31%Z.

Definition digit (c : ascii) : option Z :=
  let n := nat_of_ascii c in
  if (48 <=? n)%nat && (n <=? 57)%nat then Some (Z.of_nat (n - 48)) else None.

(** Splits at the first ['-']. *)
Fixpoint split_dash (s : string) : option (string * string) :=
  match s with
  | EmptyString => None
  | String c s' =>
      if Ascii.eqb c "-" then Some (EmptyString, s')
      else match split_dash s' with
           | Some (a, b) => Some (String c a, b)
           | None => None
           end
  end.

(** [\d\d\d\d] *)
Definition parse_year (s : string) : option Z :=
  match s with
  | String a (String b (String c (String d EmptyString))) =>
      match digit a, digit b, digit c, digit d with
      | Some a, Some b, Some c, Some d => Some (1000 * a + 100 * b + 10 * c + d)%Z
      | _, _, _, _ => None
      end
  | _ => None
  end.

(** One or two digits, the value between [1] and [hi]; [sp] allows a
    space in place of the leading zero. *)
Definition parse_field (sp : bool) (hi : Z) (s : string) : option Z :=
  match s with
  | String a EmptyString =>
      match digit a with
      | Some a => if (1 <=? a)%Z then Some a else None
      | None => None
      end
  | String a (String b EmptyString) =>
      match (if sp && Ascii.eqb a " " then Some 0%Z else digit a), digit b with
      | Some a, Some b =>
          let v := (10 * a + b)%Z in
          if ((1 <=? v) && (v <=? hi))%Z then Some v else None
      | _, _ => None
      end
  | _ => None
  end.

Definition strptime (s fmt : string) : result datetime.t :=
  if negb (String.eqb fmt "%Y-%m-%d") then Raise (ValueError "unsupported format")
  else
    match split_dash s with
    | Some (y, rest) =>
        match split_dash rest with
        | Some (m, d) =>
            match parse_year y, parse_field false 12 m, parse_field true 31 d with
            | Some y, Some m, Some d =>
                if (y <? 1)%Z then Raise (ValueError "year is out of range")
                else if (days_in_month y m <? d)%Z
                then Raise (ValueError "day is out of range for month")
                else Return (datetime.mk y m d 0 0 0 0)
            | _, _, _ => Raise (ValueError "time data does not match format")
            end
        | None => Raise (ValueError "time data does not match format")
        end
    | None => Raise (ValueError "time data does not match format")
    end.

(** Days since 1970-01-01 of a civil date, and back. *)
Definition days_from_civil (y m d : Z) : Z :=
  let y := if (m <=? 2)%Z then (y - 1)%Z else y in
  let era := (y / 400)%Z in
  let yoe := (y - era * 400)%Z in
  let mp := ((m + 9) mod 12)%Z in
  let doy := ((153 * mp + 2) / 5 + d - 1)%Z in
  let doe := (yoe * 365 + yoe / 4 - yoe / 100 + doy)%Z in
  (era * 146097 + doe - 719468)%Z.

Definition civil_from_days (z : Z) : Z * Z * Z :=
  let z := (z + 719468)%Z in
  let era := (z / 146097)%Z in
  let doe := (z - era * 146097)%Z in
  let yoe := ((doe - doe / 1460 + doe / 36524 - doe / 146096) / 365)%Z in
  let doy := (doe - (365 * yoe + yoe / 4 - yoe / 100))%Z in
  let mp := ((5 * doy + 2) / 153)%Z in
  let d := (doy - (153 * mp + 2) / 5 + 1)%Z in
  let m := if (mp <? 10)%Z then (mp + 3)%Z else (mp - 9)%Z in
  let y := (yoe + era * 400)%Z in
  (if (m <=? 2)%Z then (y + 1)%Z else y, m, d).

(** Microseconds since 1970-01-01 00:00:00 of a datetime, and back. *)
Definition day_us : Z := 86400000000.

Definition time_of_day (d : datetime.t) : Z :=
  (((datetime.hour d * 60 + datetime.minute d) * 60 + datetime.second d) * 1000000
   + datetime.microsecond d)%Z.

Definition to_us (d : datetime.t) : Z :=
  (days_from_civil (datetime.year d) (datetime.month d) (datetime.day d) * day_us
   + time_of_day d)%Z.

Definition at_time (ymd : Z * Z * Z) (t : Z) : datetime.t :=
  let '(y, m, d) := ymd in
  datetime.mk y m d (t / 3600000000)%Z ((t / 60000000) mod 60)%Z
              ((t / 1000000) mod 60)%Z (t mod 1000000)%Z.

Definition of_us (us : Z) : datetime.t :=
  at_time (civil_from_days (us / day_us)%Z) (us mod day_us)%Z.

(** [first, first + step, ...] up to [stop], in microseconds. *)
Definition ticks (first step stop : Z) : list datetime.t :=
  if (stop <? first)%Z then []
  else (fun k : Z => of_us (first + k * step)%Z) <$> seqZ 0 ((stop - first) / step + 1)%Z.

(** The day of the week, Monday being 0. *)
Definition weekday (d : datetime.t) : Z :=
  ((days_from_civil (datetime.year d) (datetime.month d) (datetime.day d) + 3) mod 7)%Z.

(** The first Sunday on or after the start, then every week. *)
Definition weekly (s e : datetime.t) : list datetime.t :=
  ticks (to_us s + ((6 - weekday s) mod 7) * day_us)%Z (7 * day_us)%Z (to_us e).

(** The first day of a month, at the time of day of the start: the first
    such on or after the start, then every [n] months. *)
Definition month_start (s : datetime.t) (index : Z) : datetime.t :=
  at_time ((index / 12)%Z, (index mod 12 + 1)%Z, 1%Z) (time_of_day s).

Definition monthly (n : Z) (s e : datetime.t) : list datetime.t :=
  let first :=
    (datetime.year s * 12 + (datetime.month s - 1)
     + (if (datetime.day s =? 1)%Z then 0 else 1))%Z in
  let last := (datetime.year e * 12 + (datetime.month e - 1))%Z in
  filter (fun d => datetime.le d e = true)
         ((fun k : Z => month_start s (first + k * n)%Z)
            <$> seqZ 0 ((last - first) / n + 1)%Z).

Definition minute_us : Z := 60000000.

Definition date_range (s e : datetime.t) (freq : string) : result (list datetime.t) :=
  let tick n := Return (ticks (to_us s) (n * minute_us)%Z (to_us e)) in
  if String.eqb freq "T" then tick 1%Z
  else if String.eqb freq "2T" then tick 2%Z
  else if String.eqb freq "5T" then tick 5%Z
  else if String.eqb freq "15T" then tick 15%Z
  else if String.eqb freq "30T" then tick 30%Z
  else if String.eqb freq "60T" then tick 60%Z
  else if String.eqb freq "90T" then tick 90%Z
  else if String.eqb freq "H" then tick 60%Z
  else if String.eqb freq "D" then tick 1440%Z
  else if String.eqb freq "5D" then tick 7200%Z
  else if String.eqb freq "W" then Return (weekly s e)
  else if String.eqb freq "MS" then Return (monthly 1 s e)
  else if String.eqb freq "3MS" then Return (monthly 3 s e)
  else Raise (ValueError ("Invalid frequency: " ++ freq)).

Definition date_range_strict (s e : datetime.t) (freq : string)
    : result (list datetime.t) :=
  if String.eqb freq "D" || String.eqb freq "5D" || String.eqb freq "W"
     || String.eqb freq "MS" || String.eqb freq "3MS"
  then date_range s e freq
  else Raise (ValueError ("Invalid frequency: " ++ freq)).

(** The provider is absent: the [yfinance] import failed. *)
Definition no_provider : option (MarketDataQuery.t -> result Empty_set) := None.

Definition query := MarketDataQuery.init strptime.
Definition fetch := MarketDataQuery.fetch date_range Empty_set no_provider.
Definition fetch_strict := MarketDataQuery.fetch date_range_strict Empty_set no_provider.

End Calendar.

(** ** Sequences of calls on one order *)

(** A call made on an order object. *)
Inductive call : Type :=
| Cancel
| Execute (market_price : num).

(** The order after one call.  A call that raises has mutated nothing. *)
Definition apply_call (o : TradeOrder.t) (c : call) : TradeOrder.t :=
  match c with
  | Cancel => TradeOrder.cancel o
  | Execute p =>
      match TradeOrder.execute o p with
      | Return o' => o'
      | Raise _ => o
      end
  end.

Definition run (o : TradeOrder.t) (cs : list call) : TradeOrder.t :=
  foldl apply_call o cs.

(** [order.execute(p1); ...; order.execute(pn)], stopping at the first
    exception. *)
Fixpoint execute_all (o : TradeOrder.t) (ps : list num) : result TradeOrder.t :=
  match ps with
  | [] => Return o
  | p :: ps => let* o' := TradeOrder.execute o p in execute_all o' ps
  end.

(** Every attribute but [status] agrees. *)
Definition same_but_status (o o' : TradeOrder.t) : Prop :=
  TradeOrder.cls o' = TradeOrder.cls o /\
  TradeOrder.symbol o' = TradeOrder.symbol o /\
  TradeOrder.side o' = TradeOrder.side o /\
  TradeOrder.quantity o' = TradeOrder.quantity o /\
  TradeOrder.order_type o' = TradeOrder.order_type o /\
  TradeOrder.price o' = TradeOrder.price o /\
  TradeOrder.timestamp o' = TradeOrder.timestamp o.

(** ** Concrete objects used in the examples *)

Definition ts : string := "2023-01-01 12:00:00".

(** [o = MarketOrder('MSFT', 'sell', 50); o.cancel()] *)
Definition cancelled_market_order : TradeOrder.t :=
  TradeOrder.cancel (TradeOrder.MarketOrder "MSFT" "sell" (int 50) ts).

(** [o = LimitOrder('TSLA', 'buy', 10, 95.0); o.cancel()] *)
Definition cancelled_limit_order : TradeOrder.t :=
  TradeOrder.cancel (TradeOrder.LimitOrder "TSLA" "buy" (int 10) (int 95) ts).

(** A fresh broker and one order object, [MarketOrder('AAPL', 'buy', 10)],
    at identity 1. *)
Definition one_order_world : world :=
  mkWorld {[ 1%nat := TradeOrder.MarketOrder "AAPL" "buy" (int 10) ts ]}
          MockBrokerConnector.init.

(** [PriceBar('2023-01-01', float('nan'), 105.0, 110.0, 95.0, 1000)] *)
Definition nan_bar : PriceBar.t :=
  PriceBar.mk "2023-01-01" (PyFloat S754_nan) (float 105) (float 110) (float 95)
              (int 1000).

(** The float [0.1], as the literal reads: the float nearest to 1/10. *)
Definition tenth : num := PyFloat (SFdiv prec emax (float_of_Z 1) (float_of_Z 10)).

(** Two order objects for a fresh broker: at identity 1
    [LimitOrder('X', 'sell', 10**400, 0)], at identity 2
    [MarketOrder('X', 'buy', 2.0)]. *)
Definition huge_position_world : world :=
  mkWorld {[ 1%nat := TradeOrder.LimitOrder "X" "sell" (int (10 ^ 400)) (int 0) ts;
             2%nat := TradeOrder.MarketOrder "X" "buy" (float 2) ts ]}
          MockBrokerConnector.init.

(** ** Runs of calls *)

(** The identities of the calls of a run that returned a receipt. *)
Fixpoint returned_ids (calls : list (oid * string))
    (rs : list (result OrderReceipt.t)) : list oid :=
  match calls, rs with
  | (o, _) :: calls, Return _ :: rs => o :: returned_ids calls rs
  | _ :: calls, Raise _ :: rs => returned_ids calls rs
  | _, _ => []
  end.

(** ** The prices of the tables, as the interpreter computes them *)

(** The float [0.5] and the expression [100 + i * 0.5] of [fetch] and
    [getMarketData], evaluated in Python's arithmetic. *)
Definition float_half : num :=
  PyFloat (SFdiv prec emax (float_of_Z 1) (float_of_Z 2)).

Definition price_at (i : nat) : result num :=
  let* step := py_mul (int (Z.of_nat i)) float_half in
  py_add (int 100) step.

(** Whether [price_at i] is a float whose value is the rational
    [100 + i / 2] of the tables. *)
Definition price_is_exact (i : nat) : bool :=
  match price_at i with
  | Return (PyFloat f) =>
      match float_value f with
      | Some (Finite q) =>
          Qc_eq_bool q (Qc_of_Z 100 + Qc_of_Z (Z.of_nat i) * half)
      | _ => false
      end
  | _ => false
  end.

(** Closed equations between rationals. *)
Ltac num_eq := apply Qc_is_canon; vm_compute; reflexivity.

(** * Properties *)

(** ** Basic facts *)

Lemma ext_leb_true (x y : ext) : ext_leb x y = true <-> ext_le x y.
Proof.
  destruct x, y; simpl; try (by split); try (split; [discriminate|done]).
  apply bool_decide_eq_true.
Qed.

Lemma ext_le_trans (x y z : ext) : ext_le x y -> ext_le y z -> ext_le x z.
Proof.
  destruct x, y, z; simpl; try done. apply Qcle_trans.
Qed.

Lemma num_le_true (a b : num) : num_le a b = true <-> a ≤ b.
Proof.
  unfold num_le, num_leq. split.
  - destruct (value a) as [x|], (value b) as [y|]; try discriminate.
    intros H. exists x, y. by rewrite <- ext_leb_true.
  - intros (x & y & -> & -> & H). by apply ext_leb_true.
Qed.

Lemma num_le_false (a b : num) : num_le a b = false <-> ~ a ≤ b.
Proof.
  rewrite <- num_le_true. by destruct (num_le a b).
Qed.

Lemma num_ge_true (a b : num) : num_ge a b = true <-> b ≤ a.
Proof. unfold num_ge. apply num_le_true. Qed.

Lemma num_ge_false (a b : num) : num_ge a b = false <-> ~ b ≤ a.
Proof. unfold num_ge. apply num_le_false. Qed.

Lemma num_leq_trans (a b c : num) : a ≤ b -> b ≤ c -> a ≤ c.
Proof.
  intros (x & y & Hx & Hy & Hxy) (y' & z & Hy' & Hz & Hyz).
  rewrite Hy in Hy'. injection Hy' as <-.
  exists x, z. split; [done|]. split; [done|]. by apply ext_le_trans with y.
Qed.

Lemma set_status_id (o : TradeOrder.t) :
  TradeOrder.set_status o (TradeOrder.status o) = o.
Proof. by destruct o. Qed.

(** ** cancel *)

(** C9. [cancel()] is a total function (it cannot raise).  On a pending
    order it sets the status to cancelled and keeps every other attribute;
    on a filled or cancelled order it changes nothing at all. *)
Theorem cancel_pending_only (o : TradeOrder.t) :
  (TradeOrder.status o = pending ->
     TradeOrder.status (TradeOrder.cancel o) = cancelled /\
     same_but_status o (TradeOrder.cancel o)) /\
  (TradeOrder.status o = filled \/ TradeOrder.status o = cancelled ->
     TradeOrder.cancel o = o).
Proof.
  unfold TradeOrder.cancel. split.
  - intros Hp. rewrite decide_True by done. split; [done|].
    by repeat split.
  - intros Hs. rewrite decide_False; [done|].
    destruct Hs as [Hs|Hs]; rewrite Hs; discriminate.
Qed.

Lemma cancel_pending_only_witness :
  TradeOrder.status (TradeOrder.cancel (TradeOrder.LimitOrder "goog" "buy" (int 10) (int 150) ts))
    = cancelled /\
  TradeOrder.cancel (TradeOrder.cancel (TradeOrder.MarketOrder "msft" "sell" (int 50) ts))
    = TradeOrder.cancel (TradeOrder.MarketOrder "msft" "sell" (int 50) ts).
Proof.
  split.
  - apply (cancel_pending_only (TradeOrder.LimitOrder "goog" "buy" (int 10) (int 150) ts)).
    reflexivity.
  - apply (cancel_pending_only
             (TradeOrder.cancel (TradeOrder.MarketOrder "msft" "sell" (int 50) ts))).
    right. reflexivity.
Defined.

(** ** MarketOrder.execute *)

Lemma market_execute (o : TradeOrder.t) (p : num) :
  TradeOrder.cls o = MarketOrder_cls ->
  TradeOrder.execute o p
    = Return (TradeOrder.set_status (TradeOrder.set_price o (Some p)) filled).
Proof. unfold TradeOrder.execute. by intros ->. Qed.

Lemma market_execute_all (ps : list num) : forall (o : TradeOrder.t) (p : num),
  TradeOrder.cls o = MarketOrder_cls ->
  execute_all o (ps ++ [p])
    = Return (TradeOrder.set_status (TradeOrder.set_price o (Some p)) filled).
Proof.
  induction ps as [|q ps IH]; intros o p Hc; simpl.
  - by rewrite market_execute.
  - rewrite market_execute by done. simpl. by rewrite IH.
Qed.

(** C6. On a MarketOrder, whatever its status, a non-empty sequence of
    [execute] calls runs to the end without raising, leaves the status
    filled and the price equal to the last argument. *)
Theorem market_execute_last_wins (o : TradeOrder.t) (ps : list num) (p : num) :
  TradeOrder.cls o = MarketOrder_cls ->
  exists o',
    execute_all o (ps ++ [p]) = Return o' /\
    TradeOrder.status o' = filled /\
    TradeOrder.price o' = Some p.
Proof.
  intros Hc. eexists. split; [by apply market_execute_all|]. by split.
Qed.

Lemma market_execute_last_wins_witness :
  exists o',
    execute_all (TradeOrder.cancel (TradeOrder.MarketOrder "msft" "sell" (int 50) ts))
                ([int 99; int 101] ++ [int 123]) = Return o' /\
    TradeOrder.status o' = filled /\ TradeOrder.price o' = Some (int 123).
Proof.
  apply (market_execute_last_wins
           (TradeOrder.cancel (TradeOrder.MarketOrder "msft" "sell" (int 50) ts))).
  reflexivity.
Defined.

(** ** LimitOrder.execute *)

Lemma limit_execute_buy (o : TradeOrder.t) (p L : num) :
  TradeOrder.cls o = LimitOrder_cls ->
  TradeOrder.side o = "BUY" ->
  TradeOrder.price o = Some L ->
  TradeOrder.execute o p
    = Return (if num_le p L then TradeOrder.set_status o filled else o).
Proof.
  unfold TradeOrder.execute, TradeOrder.LimitOrder_execute.
  intros -> -> ->. simpl. by destruct (num_le p L).
Qed.

Lemma limit_execute_sell (o : TradeOrder.t) (p L : num) :
  TradeOrder.cls o = LimitOrder_cls ->
  TradeOrder.side o = "SELL" ->
  TradeOrder.price o = Some L ->
  TradeOrder.execute o p
    = Return (if num_ge p L then TradeOrder.set_status o filled else o).
Proof.
  unfold TradeOrder.execute, TradeOrder.LimitOrder_execute.
  intros -> -> ->. simpl. by destruct (num_ge p L).
Qed.

(** C2. A LimitOrder with limit price [L], executed at [p], returns without
    raising.  With side BUY the status is set to filled exactly when
    [p <= L], with side SELL exactly when [p >= L]; otherwise the order is
    left as it was.  For an order that was not filled before, the status
    afterwards is filled iff the condition holds. *)
Theorem limit_execute_fills_iff (o : TradeOrder.t) (p L : num) :
  TradeOrder.cls o = LimitOrder_cls ->
  TradeOrder.price o = Some L ->
  (TradeOrder.side o = "BUY" ->
     exists o', TradeOrder.execute o p = Return o' /\
       (p ≤ L -> o' = TradeOrder.set_status o filled) /\
       (~ p ≤ L -> o' = o) /\
       (TradeOrder.status o <> filled -> (TradeOrder.status o' = filled <-> p ≤ L))) /\
  (TradeOrder.side o = "SELL" ->
     exists o', TradeOrder.execute o p = Return o' /\
       (L ≤ p -> o' = TradeOrder.set_status o filled) /\
       (~ L ≤ p -> o' = o) /\
       (TradeOrder.status o <> filled -> (TradeOrder.status o' = filled <-> L ≤ p))).
Proof.
  intros Hc Hp. split; intros Hs.
  - eexists. split; [by apply limit_execute_buy|].
    destruct (num_le p L) eqn:E.
    + apply num_le_true in E. by repeat split.
    + apply num_le_false in E. by repeat split.
  - eexists. split; [by apply limit_execute_sell|].
    destruct (num_ge p L) eqn:E.
    + apply num_ge_true in E. by repeat split.
    + apply num_ge_false in E. by repeat split.
Qed.

Lemma limit_execute_fills_iff_witness :
  exists o',
    TradeOrder.execute (TradeOrder.LimitOrder "goog" "buy" (int 10) (int 150) ts) (int 151)
      = Return o' /\
    o' = TradeOrder.LimitOrder "goog" "buy" (int 10) (int 150) ts.
Proof.
  destruct (limit_execute_fills_iff
              (TradeOrder.LimitOrder "goog" "buy" (int 10) (int 150) ts)
              (int 151) (int 150) eq_refl eq_refl) as [Hbuy _].
  destruct (Hbuy eq_refl) as (o' & He & _ & Hno & _).
  exists o'. split; [exact He|]. apply Hno. apply num_le_false. vm_compute. reflexivity.
Defined.

(** ** The order state machine *)

Lemma execute_fills_or_keeps (o o' : TradeOrder.t) (p : num) :
  TradeOrder.execute o p = Return o' ->
  TradeOrder.status o' = filled \/ o' = o.
Proof.
  unfold TradeOrder.execute, TradeOrder.MarketOrder_execute,
    TradeOrder.LimitOrder_execute, py_and, le_opt, ge_opt.
  destruct (TradeOrder.cls o); [discriminate| |].
  - intros [= <-]. by left.
  - destruct (String.eqb (TradeOrder.side o) "BUY"),
      (String.eqb (TradeOrder.side o) "SELL"),
      (TradeOrder.price o) as [L|]; simpl;
      try destruct (num_le p L); try destruct (num_ge p L); simpl;
      intros [= <-]; auto.
Qed.

Lemma cancel_keeps_filled (o : TradeOrder.t) :
  TradeOrder.status o = filled -> TradeOrder.cancel o = o.
Proof.
  intros H. unfold TradeOrder.cancel. rewrite decide_False; [done|].
  rewrite H. discriminate.
Qed.

Lemma cancel_keeps_cancelled (o : TradeOrder.t) :
  TradeOrder.status o = cancelled -> TradeOrder.cancel o = o.
Proof.
  intros H. unfold TradeOrder.cancel. rewrite decide_False; [done|].
  rewrite H. discriminate.
Qed.

Lemma apply_call_filled (o : TradeOrder.t) (c : call) :
  TradeOrder.status o = filled -> TradeOrder.status (apply_call o c) = filled.
Proof.
  intros H. destruct c as [|p]; simpl.
  - by rewrite cancel_keeps_filled.
  - destruct (TradeOrder.execute o p) as [o'|e] eqn:E; [|done].
    destruct (execute_fills_or_keeps _ _ _ E) as [ H1 | -> ]; done.
Qed.

Lemma apply_call_cancelled (o : TradeOrder.t) (c : call) :
  TradeOrder.status o = cancelled ->
  TradeOrder.status (apply_call o c) <> filled ->
  apply_call o c = o.
Proof.
  intros H. destruct c as [|p]; simpl.
  - intros _. by apply cancel_keeps_cancelled.
  - destruct (TradeOrder.execute o p) as [o'|e] eqn:E; [|done].
    destruct (execute_fills_or_keeps _ _ _ E) as [ H1 | -> ]; done.
Qed.

(** The statement of C3 fails for the cancelled state: [execute] does not
    look at the status, so a cancelled MarketOrder executed at 100 becomes
    filled. *)
Lemma cancelled_order_can_fill :
  TradeOrder.status cancelled_market_order = cancelled /\
  TradeOrder.status (run cancelled_market_order [Execute (int 100)]) = filled /\
  TradeOrder.status (run cancelled_market_order [Execute (int 100)])
    <> TradeOrder.status cancelled_market_order.
Proof. repeat split. discriminate. Qed.

(** C3, amended.  Filled is terminal: no sequence of [cancel()] and
    [execute(p)] calls changes the status of a filled order.  A cancelled
    order is left exactly as it is by every sequence of calls none of which
    fills it ([cancel()], and [execute(p)] on a LimitOrder whose limit
    condition fails at [p]); but [execute(p)] on a MarketOrder fills it
    whatever its status, cancelled included. *)
Theorem filled_is_terminal :
  (forall (o : TradeOrder.t) (cs : list call),
     TradeOrder.status o = filled -> TradeOrder.status (run o cs) = filled) /\
  (forall (o : TradeOrder.t) (cs : list call),
     TradeOrder.status o = cancelled ->
     Forall (fun c => TradeOrder.status (apply_call o c) <> filled) cs ->
     run o cs = o) /\
  (forall (o : TradeOrder.t) (p : num),
     TradeOrder.cls o = MarketOrder_cls ->
     TradeOrder.status (apply_call o (Execute p)) = filled).
Proof.
  repeat split.
  - intros o cs. revert o. unfold run.
    induction cs as [|c cs IH]; intros o H; simpl; [done|].
    apply IH. by apply apply_call_filled.
  - intros o cs H HF. unfold run.
    induction HF as [|c cs Hc _ IH]; simpl; [done|].
    by rewrite apply_call_cancelled.
  - intros o p Hc. simpl. by rewrite market_execute.
Qed.

Lemma filled_is_terminal_witness :
  TradeOrder.status
    (run (TradeOrder.set_status (TradeOrder.LimitOrder "goog" "buy" (int 10) (int 150) ts) filled)
         [Cancel; Execute (int 151); Execute (int 149); Cancel]) = filled /\
  run (TradeOrder.cancel (TradeOrder.LimitOrder "goog" "buy" (int 10) (int 150) ts))
      [Cancel; Execute (int 151)]
    = TradeOrder.cancel (TradeOrder.LimitOrder "goog" "buy" (int 10) (int 150) ts).
Proof.
  destruct filled_is_terminal as (Hf & Hc & _). split.
  - apply Hf. reflexivity.
  - apply Hc; [reflexivity|].
    repeat constructor; vm_compute; discriminate.
Defined.

(** ** MockBrokerConnector.submitOrder *)


(** What the three statements of a branch did when none of them raised. *)
Lemma book_returns (cash_op pos_op : num -> num -> result num)
    (b b' : MockBrokerConnector.t) (o : TradeOrder.t) (u : unit) :
  MockBrokerConnector.book cash_op pos_op b o = (b', Return u) ->
  exists pr amount q,
    TradeOrder.price o = Some pr /\
    py_mul pr (TradeOrder.quantity o) = Return amount /\
    cash_op (MockBrokerConnector.cash_balance b) amount
      = Return (MockBrokerConnector.cash_balance b') /\
    pos_op (MockBrokerConnector.get_position b (TradeOrder.symbol o))
           (TradeOrder.quantity o) = Return q /\
    MockBrokerConnector.positions b'
      = <[TradeOrder.symbol o := q]> (MockBrokerConnector.positions b) /\
    MockBrokerConnector.order_history b' = MockBrokerConnector.order_history b /\
    MockBrokerConnector.current_market_price b'
      = MockBrokerConnector.current_market_price b.
Proof.
  unfold MockBrokerConnector.book, mul_opt.
  destruct (TradeOrder.price o) as [pr|]; [|discriminate].
  destruct (py_mul pr _) as [amount|] eqn:Hm; [|discriminate].
  destruct (cash_op _ amount) as [cash|] eqn:Hc; [|discriminate].
  change (MockBrokerConnector.get_position
            (MockBrokerConnector.set_cash_balance b cash) (TradeOrder.symbol o))
    with (MockBrokerConnector.get_position b (TradeOrder.symbol o)).
  destruct (pos_op _ _) as [q|] eqn:Hp; [|discriminate].
  intros [= <-]. by exists pr, amount, q.
Qed.

(** What a returning [submitOrder] did, step by step. *)
Lemma submitOrder_returns (b b' : MockBrokerConnector.t) (id : oid)
    (o o' : TradeOrder.t) (now : string) (r : OrderReceipt.t) :
  MockBrokerConnector.submitOrder b id o now = (b', o', Return r) ->
  TradeOrder.execute o (MockBrokerConnector.current_market_price b) = Return o' /\
  MockBrokerConnector.settle
    (MockBrokerConnector.mk (MockBrokerConnector.cash_balance b)
       (MockBrokerConnector.positions b)
       (MockBrokerConnector.order_history b ++ [id])
       (MockBrokerConnector.current_market_price b)) o' = (b', Return tt) /\
  r = MockBrokerConnector.receipt_of id o' now.
Proof.
  unfold MockBrokerConnector.submitOrder.
  destruct (TradeOrder.execute o _) as [o1|e] eqn:He; [|discriminate].
  destruct (MockBrokerConnector.settle _ o1) as [b1 [[]|e]] eqn:Hl; [|discriminate].
  intros [= <- <- <-]. by rewrite Hl.
Qed.

(** C1. Whenever [submitOrder] returns with the order filled, a BUY has
    taken [price * quantity] out of the cash balance and added [quantity]
    to the position of the symbol, and a SELL has done the opposite, in
    Python's arithmetic, where [price] is the order's price (the broker's
    market price for a MarketOrder) and a symbol without a position counts
    as 0.  On a fresh broker (cash 100000.0, market price 100.0) a market
    BUY of 10 ends with cash 99000.0 and position 10, a market SELL of 5
    with cash 100500.0 and position -5. *)
Theorem filled_order_moves_ledger :
  (forall (b b' : MockBrokerConnector.t) (id : oid) (o o' : TradeOrder.t)
          (now : string) (r : OrderReceipt.t),
     MockBrokerConnector.submitOrder b id o now = (b', o', Return r) ->
     TradeOrder.status o' = filled ->
     (TradeOrder.cls o = MarketOrder_cls ->
        TradeOrder.price o' = Some (MockBrokerConnector.current_market_price b)) /\
     (TradeOrder.side o' = "BUY" ->
        exists pr cost q,
          TradeOrder.price o' = Some pr /\
          py_mul pr (TradeOrder.quantity o') = Return cost /\
          py_sub (MockBrokerConnector.cash_balance b) cost
            = Return (MockBrokerConnector.cash_balance b') /\
          py_add (default (int 0)
                    (MockBrokerConnector.positions b !! TradeOrder.symbol o'))
                 (TradeOrder.quantity o') = Return q /\
          MockBrokerConnector.positions b'
            = <[TradeOrder.symbol o' := q]> (MockBrokerConnector.positions b)) /\
     (TradeOrder.side o' = "SELL" ->
        exists pr revenue q,
          TradeOrder.price o' = Some pr /\
          py_mul pr (TradeOrder.quantity o') = Return revenue /\
          py_add (MockBrokerConnector.cash_balance b) revenue
            = Return (MockBrokerConnector.cash_balance b') /\
          py_sub (default (int 0)
                    (MockBrokerConnector.positions b !! TradeOrder.symbol o'))
                 (TradeOrder.quantity o') = Return q /\
          MockBrokerConnector.positions b'
            = <[TradeOrder.symbol o' := q]> (MockBrokerConnector.positions b))) /\
  (forall (sym : string) (id : oid) (t0 now : string),
     exists b' o' r,
       MockBrokerConnector.submitOrder MockBrokerConnector.init id
         (TradeOrder.MarketOrder sym "buy" (int 10) t0) now = (b', o', Return r) /\
       TradeOrder.status o' = filled /\
       OrderReceipt.status r = filled /\
       OrderReceipt.executed_quantity r = int 10 /\
       MockBrokerConnector.cash_balance b' = float 99000 /\
       MockBrokerConnector.positions b' !! TradeOrder.symbol o' = Some (int 10)) /\
  (forall (sym : string) (id : oid) (t0 now : string),
     exists b' o' r,
       MockBrokerConnector.submitOrder MockBrokerConnector.init id
         (TradeOrder.MarketOrder sym "sell" (int 5) t0) now = (b', o', Return r) /\
       TradeOrder.status o' = filled /\
       MockBrokerConnector.cash_balance b' = float 100500 /\
       MockBrokerConnector.positions b' !! TradeOrder.symbol o' = Some (int (-5))).
Proof.
  split; [|split].
  - intros b b' id o o' now r Hs Hf.
    destruct (submitOrder_returns _ _ _ _ _ _ _ Hs) as (He & Hl & _).
    split; [|split].
    + intros Hc. rewrite market_execute in He by done. by injection He as <-.
    + intros Hside. unfold MockBrokerConnector.settle in Hl.
      rewrite decide_True, Hside in Hl by done. simpl in Hl.
      destruct (book_returns _ _ _ _ _ _ Hl) as (pr & cost & q & ? & ? & ? & ? & ? & _).
      by exists pr, cost, q.
    + intros Hside. unfold MockBrokerConnector.settle in Hl.
      rewrite decide_True, Hside in Hl by done. simpl in Hl.
      destruct (book_returns _ _ _ _ _ _ Hl) as (pr & rev & q & ? & ? & ? & ? & ? & _).
      by exists pr, rev, q.
  - intros sym id t0 now. do 3 eexists. split; [reflexivity|].
    split_and!; try reflexivity. simpl. by rewrite lookup_insert_eq.
  - intros sym id t0 now. do 3 eexists. split; [reflexivity|].
    split_and!; try reflexivity. simpl. by rewrite lookup_insert_eq.
Qed.

Lemma filled_order_moves_ledger_witness :
  exists pr cost q,
    TradeOrder.price
      (TradeOrder.set_status
         (TradeOrder.set_price (TradeOrder.MarketOrder "AAPL" "buy" (int 10) ts)
            (Some (float 100))) filled) = Some pr /\
    py_mul pr (int 10) = Return cost /\
    py_sub (MockBrokerConnector.cash_balance MockBrokerConnector.init) cost
      = Return (MockBrokerConnector.cash_balance
                  (MockBrokerConnector.submitOrder MockBrokerConnector.init 1
                     (TradeOrder.MarketOrder "AAPL" "buy" (int 10) ts) ts).1.1) /\
    py_add (default (int 0)
              (MockBrokerConnector.positions MockBrokerConnector.init !! "AAPL"))
           (int 10)
      = Return q.
Proof.
  destruct filled_order_moves_ledger as (Hgen & _ & _).
  destruct (Hgen MockBrokerConnector.init
              (MockBrokerConnector.submitOrder MockBrokerConnector.init 1
                 (TradeOrder.MarketOrder "AAPL" "buy" (int 10) ts) ts).1.1
              1%nat (TradeOrder.MarketOrder "AAPL" "buy" (int 10) ts)
              (TradeOrder.set_status
                 (TradeOrder.set_price (TradeOrder.MarketOrder "AAPL" "buy" (int 10) ts)
                    (Some (float 100))) filled)
              ts
              (MockBrokerConnector.receipt_of 1
                 (TradeOrder.set_status
                    (TradeOrder.set_price (TradeOrder.MarketOrder "AAPL" "buy" (int 10) ts)
                       (Some (float 100))) filled) ts)
              eq_refl eq_refl) as (_ & Hbuy & _).
  destruct (Hbuy eq_refl) as (pr & cost & q & Hpr & Hmul & Hcash & Hpos & _).
  exists pr, cost, q. split; [exact Hpr|]. split; [exact Hmul|].
  split; [exact Hcash | exact Hpos].
Defined.

(** The arithmetic is the interpreter's: a market BUY of 0.1 on a fresh
    broker costs [100.0 * 0.1], which is the float 10.0, and leaves the
    cash at 99990.0. *)
Example buy_of_a_tenth :
  MockBrokerConnector.cash_balance
    (MockBrokerConnector.submitOrder MockBrokerConnector.init 1
       (TradeOrder.MarketOrder "AAPL" "buy" tenth ts) ts).1.1 = float 99990.
Proof. vm_compute. reflexivity. Qed.

(** The statement of C5 fails on the receipt's status: the receipt copies
    the order's status, and an order that is not filled need not be
    pending.  A cancelled LimitOrder (BUY, limit 95) submitted to a fresh
    broker (market price 100) stays cancelled, and so does its receipt. *)
Lemma unfilled_receipt_not_pending :
  exists b' o' r,
    MockBrokerConnector.submitOrder MockBrokerConnector.init 1
      cancelled_limit_order ts = (b', o', Return r) /\
    TradeOrder.status o' <> filled /\
    OrderReceipt.status r = cancelled /\
    OrderReceipt.status r <> pending.
Proof. do 3 eexists. split; [reflexivity|]. by repeat split. Qed.

(** C5, amended.  When [submitOrder] returns and the order is not filled,
    the cash balance and the positions are unchanged, the order has been
    appended to the history, and the receipt has executed quantity 0, no
    executed price, and the status the order had before the call, which the
    call did not change: pending for an order submitted pending, cancelled
    for one submitted cancelled. *)
Theorem unfilled_order_leaves_ledger (b b' : MockBrokerConnector.t) (id : oid)
    (o o' : TradeOrder.t) (now : string) (r : OrderReceipt.t) :
  MockBrokerConnector.submitOrder b id o now = (b', o', Return r) ->
  TradeOrder.status o' <> filled ->
  MockBrokerConnector.cash_balance b' = MockBrokerConnector.cash_balance b /\
  MockBrokerConnector.positions b' = MockBrokerConnector.positions b /\
  MockBrokerConnector.order_history b'
    = (MockBrokerConnector.order_history b ++ [id])%list /\
  OrderReceipt.executed_quantity r = int 0 /\
  OrderReceipt.executed_price r = None /\
  o' = o /\
  OrderReceipt.status r = TradeOrder.status o /\
  (TradeOrder.status o = pending -> OrderReceipt.status r = pending).
Proof.
  intros Hs Hnf.
  destruct (submitOrder_returns _ _ _ _ _ _ _ Hs) as (He & Hl & ->).
  unfold MockBrokerConnector.settle in Hl.
  rewrite decide_False in Hl by done. injection Hl as <-.
  destruct (execute_fills_or_keeps _ _ _ He) as [Hf | ->]; [done|].
  unfold MockBrokerConnector.receipt_of. rewrite bool_decide_eq_false_2 by done.
  by repeat split.
Qed.

Lemma unfilled_order_leaves_ledger_witness :
  MockBrokerConnector.cash_balance
    (MockBrokerConnector.submitOrder MockBrokerConnector.init 1
       (TradeOrder.LimitOrder "TSLA" "buy" (int 10) (int 95) ts) ts).1.1
    = MockBrokerConnector.cash_balance MockBrokerConnector.init /\
  OrderReceipt.status
    (MockBrokerConnector.receipt_of 1
       (TradeOrder.LimitOrder "TSLA" "buy" (int 10) (int 95) ts) ts) = pending.
Proof.
  destruct (unfilled_order_leaves_ledger MockBrokerConnector.init
              (MockBrokerConnector.submitOrder MockBrokerConnector.init 1
                 (TradeOrder.LimitOrder "TSLA" "buy" (int 10) (int 95) ts) ts).1.1
              1%nat
              (TradeOrder.LimitOrder "TSLA" "buy" (int 10) (int 95) ts)
              (TradeOrder.LimitOrder "TSLA" "buy" (int 10) (int 95) ts)
              ts
              (MockBrokerConnector.receipt_of 1
                 (TradeOrder.LimitOrder "TSLA" "buy" (int 10) (int 95) ts) ts)
              eq_refl ltac:(discriminate))
    as (Hcash & _ & _ & _ & _ & _ & _ & Hst).
  split; [exact Hcash | exact (Hst eq_refl)].
Defined.

(** ** The ledger over repeated submissions *)


(** The statement of C4 fails in two ways.  First, on "exactly once per
    order" and on "only when the order transitions to filled in that call":
    [submitOrder] tests the status after [execute], not a transition.  The
    same MarketOrder (BUY 10 AAPL) submitted twice to a fresh broker is
    already filled before the second call, and the second call moves the
    ledger again: cash 100000.0, then 99000.0, then 98000.0, and the
    position ends at 20.  Second, on "no partial update": after a filled
    LimitOrder (SELL 10**400 X at limit 0) has left the int position
    -10**400, a MarketOrder (BUY 2.0 X) takes 200.0 out of the cash and
    then raises OverflowError in the position update, which adds a float to
    an int too large to convert: the cash has moved, the position has
    not. *)
Lemma resubmitted_order_settles_again :
  (exists w1 r1 w2 r2 ord1,
     submit one_order_world 1 ts = Some (w1, r1) /\
     heap w1 !! 1%nat = Some ord1 /\
     TradeOrder.status ord1 = filled /\
     submit w1 1 ts = Some (w2, r2) /\
     submit_all one_order_world [(1%nat, ts); (1%nat, ts)] = Some (w2, [r1; r2]) /\
     MockBrokerConnector.cash_balance (broker w1) = float 99000 /\
     MockBrokerConnector.cash_balance (broker w2) = float 98000 /\
     MockBrokerConnector.cash_balance (broker w2)
       <> MockBrokerConnector.cash_balance (broker w1) /\
     MockBrokerConnector.positions (broker w2) !! "AAPL" = Some (int 20)) /\
  (exists w1 r1 w2,
     submit huge_position_world 1 ts = Some (w1, Return r1) /\
     MockBrokerConnector.cash_balance (broker w1) = float 100000 /\
     MockBrokerConnector.positions (broker w1) !! "X" = Some (int (- 10 ^ 400)) /\
     submit w1 2 ts = Some (w2, Raise OverflowError) /\
     MockBrokerConnector.cash_balance (broker w2) = float 99800 /\
     MockBrokerConnector.positions (broker w2) !! "X" = Some (int (- 10 ^ 400)) /\
     MockBrokerConnector.order_history (broker w2) = [1%nat; 2%nat]).
Proof.
  split.
  - do 5 eexists.
    split; [reflexivity|]. split; [reflexivity|]. split; [reflexivity|].
    split; [reflexivity|]. split; [reflexivity|].
    split; [reflexivity|]. split; [reflexivity|]. split; [|reflexivity].
    vm_compute. discriminate.
  - do 3 eexists.
    split; [vm_compute; reflexivity|]. split; [reflexivity|].
    split; [vm_compute; reflexivity|]. split; [vm_compute; reflexivity|].
    split; [reflexivity|]. split; [vm_compute; reflexivity|]. reflexivity.
Qed.

(** C4, amended.  Every [submitOrder] call that returns a receipt has done
    one of three things.  The order is filled with side BUY, and the call
    has taken [price * quantity] out of the cash balance and added
    [quantity] to the position, both, once; or the same with side SELL and
    the opposite signs; or it has left cash and positions alone, the order
    being not filled or its side neither BUY nor SELL.  The alternative
    taken depends on the order's status after [execute] in that call, not on
    whether the call filled it: a returning call whose order is not filled
    afterwards causes no ledger update, and a returning call never updates
    one of cash and positions without the other. *)
Theorem ledger_moves_as_a_whole (w w' : world) (o : oid) (now : string)
    (rc : OrderReceipt.t) :
  submit w o now = Some (w', Return rc) ->
  exists ord',
    heap w' !! o = Some ord' /\
    ((exists pr cost q,
        TradeOrder.status ord' = filled /\
        TradeOrder.side ord' = "BUY" /\ TradeOrder.price ord' = Some pr /\
        py_mul pr (TradeOrder.quantity ord') = Return cost /\
        py_sub (MockBrokerConnector.cash_balance (broker w)) cost
          = Return (MockBrokerConnector.cash_balance (broker w')) /\
        py_add (default (int 0)
                  (MockBrokerConnector.positions (broker w) !! TradeOrder.symbol ord'))
               (TradeOrder.quantity ord') = Return q /\
        MockBrokerConnector.positions (broker w')
          = <[TradeOrder.symbol ord' := q]> (MockBrokerConnector.positions (broker w)))
     \/
     (exists pr revenue q,
        TradeOrder.status ord' = filled /\
        TradeOrder.side ord' = "SELL" /\ TradeOrder.price ord' = Some pr /\
        py_mul pr (TradeOrder.quantity ord') = Return revenue /\
        py_add (MockBrokerConnector.cash_balance (broker w)) revenue
          = Return (MockBrokerConnector.cash_balance (broker w')) /\
        py_sub (default (int 0)
                  (MockBrokerConnector.positions (broker w) !! TradeOrder.symbol ord'))
               (TradeOrder.quantity ord') = Return q /\
        MockBrokerConnector.positions (broker w')
          = <[TradeOrder.symbol ord' := q]> (MockBrokerConnector.positions (broker w)))
     \/
     ((TradeOrder.status ord' <> filled \/
       (TradeOrder.side ord' <> "BUY" /\ TradeOrder.side ord' <> "SELL")) /\
      MockBrokerConnector.cash_balance (broker w')
        = MockBrokerConnector.cash_balance (broker w) /\
      MockBrokerConnector.positions (broker w')
        = MockBrokerConnector.positions (broker w))).
Proof.
  unfold submit. destruct (heap w !! o) as [ord|] eqn:Hh; [|discriminate].
  destruct (MockBrokerConnector.submitOrder (broker w) o ord now)
    as [[b1 o1] r1] eqn:Hs.
  intros [= <- ->]. exists o1. simpl. split; [apply lookup_insert_eq|].
  destruct (submitOrder_returns _ _ _ _ _ _ _ Hs) as (He & Hl & _).
  unfold MockBrokerConnector.settle in Hl.
  destruct (decide (TradeOrder.status o1 = filled)) as [Hf|Hf].
  - destruct (String.eqb (TradeOrder.side o1) "BUY") eqn:EB.
    + apply String.eqb_eq in EB.
      destruct (book_returns _ _ _ _ _ _ Hl) as (pr & cost & q & ? & ? & ? & ? & ? & _).
      left. by exists pr, cost, q.
    + destruct (String.eqb (TradeOrder.side o1) "SELL") eqn:ES.
      * apply String.eqb_eq in ES.
        destruct (book_returns _ _ _ _ _ _ Hl) as (pr & rev & q & ? & ? & ? & ? & ? & _).
        right; left. by exists pr, rev, q.
      * apply String.eqb_neq in EB, ES. injection Hl as <-.
        right; right. split; [by right|done].
  - injection Hl as <-. right; right. split; [by left|done].
Qed.

Lemma ledger_moves_as_a_whole_witness :
  exists ord',
    heap (mkWorld
            (<[1%nat := (MockBrokerConnector.submitOrder MockBrokerConnector.init 1
                           (TradeOrder.MarketOrder "AAPL" "buy" (int 10) ts) ts).1.2]>
               (heap one_order_world))
            (MockBrokerConnector.submitOrder MockBrokerConnector.init 1
               (TradeOrder.MarketOrder "AAPL" "buy" (int 10) ts) ts).1.1)
      !! 1%nat = Some ord' /\
    TradeOrder.status ord' = filled /\
    exists cost,
      py_mul (float 100) (int 10) = Return cost /\
      py_sub (float 100000) cost
        = Return (MockBrokerConnector.cash_balance
                    (MockBrokerConnector.submitOrder MockBrokerConnector.init 1
                       (TradeOrder.MarketOrder "AAPL" "buy" (int 10) ts) ts).1.1).
Proof.
  destruct (ledger_moves_as_a_whole one_order_world
              (mkWorld
                 (<[1%nat := (MockBrokerConnector.submitOrder MockBrokerConnector.init 1
                                (TradeOrder.MarketOrder "AAPL" "buy" (int 10) ts) ts).1.2]>
                    (heap one_order_world))
                 (MockBrokerConnector.submitOrder MockBrokerConnector.init 1
                    (TradeOrder.MarketOrder "AAPL" "buy" (int 10) ts) ts).1.1)
              1%nat ts
              (MockBrokerConnector.receipt_of 1
                 (MockBrokerConnector.submitOrder MockBrokerConnector.init 1
                    (TradeOrder.MarketOrder "AAPL" "buy" (int 10) ts) ts).1.2 ts)
              eq_refl) as (ord' & Hh & Hcase).
  exists ord'. split; [exact Hh|].
  cbn [heap] in Hh. rewrite lookup_insert_eq in Hh. injection Hh as <-.
  split; [reflexivity|].
  destruct Hcase as [(pr & cost & q & _ & _ & Hpr & Hmul & Hcash & _)
                    |[(pr & rev & q & _ & Hside & _)|([Hnf|[Hnb _]] & _)]].
  - injection Hpr as <-. exists cost. split; [exact Hmul | exact Hcash].
  - discriminate Hside.
  - exfalso. apply Hnf. reflexivity.
  - exfalso. apply Hnb. reflexivity.
Defined.

(** ** MarketDataQuery: validation *)

Lemma str_in_true (x : string) (l : list string) :
  MarketDataQuery.str_in x l = true <-> x ∈ l.
Proof.
  unfold MarketDataQuery.str_in. rewrite existsb_exists. split.
  - intros (y & Hy & He). apply String.eqb_eq in He as ->. by apply list_elem_of_In.
  - intros H. exists x. split; [by apply list_elem_of_In | apply String.eqb_refl].
Qed.


Lemma datetime_le_not_gt (a b : datetime.t) :
  datetime.le a b = negb (datetime.gt a b).
Proof. unfold datetime.le, datetime.gt. by destruct (datetime.compare a b). Qed.

Lemma validate_passes (q : MarketDataQuery.t) :
  MarketDataQuery._validate q = Return tt <->
  datetime.le (MarketDataQuery.start_date q) (MarketDataQuery.end_date q) = true /\
  MarketDataQuery.frequency q ∈ MarketDataQuery.valid_frequencies.
Proof.
  unfold MarketDataQuery._validate. rewrite datetime_le_not_gt, <- str_in_true.
  destruct (datetime.gt _ _); cbn [negb].
  - split; [discriminate | by intros [? _]].
  - destruct (MarketDataQuery.str_in _ _); cbn [negb].
    + by split.
    + split; [discriminate | by intros [_ ?]].
Qed.

Section Construction.

Variable strptime : string -> string -> result datetime.t.

Lemma init_parsed (symbol tf s e f src : string) (ds de : datetime.t) :
  strptime s "%Y-%m-%d" = Return ds ->
  strptime e "%Y-%m-%d" = Return de ->
  MarketDataQuery.init strptime symbol tf s e f src
    = match MarketDataQuery._validate (MarketDataQuery.mk symbol tf ds de f src) with
      | Return _ => Return (MarketDataQuery.mk symbol tf ds de f src)
      | Raise x => Raise x
      end.
Proof. unfold MarketDataQuery.init. by intros -> ->. Qed.

Lemma init_validated (symbol tf s e f src : string) (q : MarketDataQuery.t) :
  MarketDataQuery.init strptime symbol tf s e f src = Return q ->
  MarketDataQuery._validate q = Return tt.
Proof.
  unfold MarketDataQuery.init.
  destruct (strptime s _) as [ds|]; [|discriminate].
  destruct (strptime e _) as [de|]; [|discriminate]. simpl.
  destruct (MarketDataQuery._validate _) as [[]|] eqn:Hv; [|discriminate].
  simpl. by intros [= <-].
Qed.

End Construction.



(** ** MarketDataQuery: the test source *)

Lemma freq_map_lookup (f a : string) :
  MarketDataQuery.freq_map !! f = Some a ->
  f ∈ MarketDataQuery.valid_frequencies /\ a <> "".
Proof.
  intros H. unfold MarketDataQuery.freq_map in H.
  apply elem_of_list_to_map_2 in H.
  unfold MarketDataQuery.valid_frequencies.
  repeat (apply elem_of_cons in H as [[= -> ->]|H]; [split; [set_solver|discriminate]|]).
  by apply elem_of_nil in H.
Qed.

Lemma freq_map_covers (f : string) :
  f ∈ MarketDataQuery.valid_frequencies ->
  exists a, MarketDataQuery.freq_map !! f = Some a.
Proof.
  unfold MarketDataQuery.valid_frequencies. intros H.
  repeat (apply elem_of_cons in H as [->|H]; [eexists; vm_compute; reflexivity|]).
  by apply elem_of_nil in H.
Qed.

Section Fetch.

Variable date_range : datetime.t -> datetime.t -> string -> result (list datetime.t).
Variable frame : Type.
Variable yahoo : option (MarketDataQuery.t -> result frame).

(** [fetch] on the test source, once the alias is known. *)
Lemma fetch_test (q : MarketDataQuery.t) (a : string) :
  MarketDataQuery.source q = "test" ->
  MarketDataQuery.freq_map !! MarketDataQuery.frequency q = Some a ->
  MarketDataQuery.fetch date_range frame yahoo q
    = match date_range (MarketDataQuery.start_date q) (MarketDataQuery.end_date q) a with
      | Return dates => Return (inl (MarketDataQuery.test_table q dates))
      | Raise x => Raise x
      end.
Proof.
  intros Hsrc Ha. unfold MarketDataQuery.fetch. rewrite Hsrc, Ha. simpl.
  destruct (freq_map_lookup _ _ Ha) as [_ Hne].
  destruct a; [done|]. by destruct (date_range _ _ _).
Qed.

End Fetch.

(** C10. The alias dictionary of [fetch] has exactly the 13 frequency codes
    the validator accepts as keys, and none of its aliases is empty.  So for
    a query that passed construction the lookup succeeds and the raise of
    'Test source does not support frequency' is never executed: on the test
    source [fetch] returns the table built from what [pd.date_range] returns,
    or raises what [pd.date_range] raises, and an exception with that message
    can only come out of a library call. *)
Theorem unsupported_frequency_unreachable :
  (forall f : string,
     f ∈ MarketDataQuery.valid_frequencies
     <-> is_Some (MarketDataQuery.freq_map !! f)) /\
  (forall f a : string, MarketDataQuery.freq_map !! f = Some a -> a <> "") /\
  (forall (strptime : string -> string -> result datetime.t)
          (date_range : datetime.t -> datetime.t -> string -> result (list datetime.t))
          (frame : Type) (yahoo : option (MarketDataQuery.t -> result frame))
          (symbol tf s e f src : string) (q : MarketDataQuery.t),
     MarketDataQuery.init strptime symbol tf s e f src = Return q ->
     (MarketDataQuery.fetch date_range frame yahoo q
        = Raise (ValueError "Test source does not support frequency: {self.frequency}") ->
      (MarketDataQuery.source q = "test" /\
       exists a, MarketDataQuery.freq_map !! MarketDataQuery.frequency q = Some a /\
         date_range (MarketDataQuery.start_date q) (MarketDataQuery.end_date q) a
           = Raise (ValueError "Test source does not support frequency: {self.frequency}")) \/
      (MarketDataQuery.source q = "yahoo" /\
       exists download, yahoo = Some download /\
         download q
           = Raise (ValueError "Test source does not support frequency: {self.frequency}"))) /\
     (MarketDataQuery.source q = "test" ->
        exists a, MarketDataQuery.freq_map !! MarketDataQuery.frequency q = Some a /\
          MarketDataQuery.fetch date_range frame yahoo q
            = match date_range (MarketDataQuery.start_date q)
                               (MarketDataQuery.end_date q) a with
              | Return dates => Return (inl (MarketDataQuery.test_table q dates))
              | Raise x => Raise x
              end)).
Proof.
  split; [|split].
  - intros f. split.
    + intros H. destruct (freq_map_covers f H) as [a ->]. by eexists.
    + intros [a Ha]. by destruct (freq_map_lookup f a Ha).
  - intros f a Ha. by destruct (freq_map_lookup f a Ha).
  - intros strptime date_range frame yahoo symbol tf s e f src q Hq.
    apply init_validated, validate_passes in Hq as [_ Hf].
    destruct (freq_map_covers _ Hf) as [a Ha].
    assert (Htest : MarketDataQuery.source q = "test" ->
              MarketDataQuery.fetch date_range frame yahoo q
              = match date_range (MarketDataQuery.start_date q)
                                 (MarketDataQuery.end_date q) a with
                | Return dates => Return (inl (MarketDataQuery.test_table q dates))
                | Raise x => Raise x
                end).
    { intros Hsrc. by apply fetch_test. }
    split; [|intros Hsrc; exists a; by split; [|apply Htest]].
    destruct (String.eqb (MarketDataQuery.source q) "test") eqn:E.
    + apply String.eqb_eq in E. rewrite (Htest E). intros Hr. left.
      split; [done|]. exists a. split; [done|].
      revert Hr. destruct (date_range _ _ a); [discriminate|by intros [= ->]].
    + unfold MarketDataQuery.fetch. rewrite E.
      destruct (String.eqb (MarketDataQuery.source q) "yahoo") eqn:Ey;
        [|discriminate].
      apply String.eqb_eq in Ey. destruct yahoo as [download|]; [|discriminate].
      intros Hr. right. split; [done|]. exists download. split; [done|].
      revert Hr. simpl. destruct (download q); [discriminate|by intros [= ->]].
Qed.

Lemma unsupported_frequency_unreachable_witness :
  exists df,
    Calendar.fetch (MarketDataQuery.mk "TEST" "D1"
                      (datetime.mk 2023 1 1 0 0 0 0) (datetime.mk 2023 1 5 0 0 0 0)
                      "1d" "test") = Return (inl df).
Proof.
  destruct unsupported_frequency_unreachable as (_ & _ & H).
  destruct (H Calendar.strptime Calendar.date_range Empty_set Calendar.no_provider
              "TEST" "D1" "2023-01-01" "2023-01-05" "1d" "test"
              (MarketDataQuery.mk "TEST" "D1"
                 (datetime.mk 2023 1 1 0 0 0 0) (datetime.mk 2023 1 5 0 0 0 0)
                 "1d" "test")
              eq_refl) as [_ Htest].
  destruct (Htest eq_refl) as (a & Ha & Hfetch).
  injection Ha as <-. eexists. exact Hfetch.
Defined.

(** *** The synthetic price column *)

Lemma synthetic_prices_length (n : nat) :
  List.length (MarketDataQuery.synthetic_prices n) = n.
Proof. unfold MarketDataQuery.synthetic_prices. by rewrite length_fmap, length_seq. Qed.

Lemma synthetic_prices_lookup (n i : nat) :
  (i < n)%nat ->
  MarketDataQuery.synthetic_prices n !! i
    = Some (Qc_of_Z 100 + Qc_of_Z (Z.of_nat i) * half).
Proof.
  intros Hi. unfold MarketDataQuery.synthetic_prices.
  by rewrite list_lookup_fmap, lookup_seq_lt.
Qed.

Lemma synthetic_prices_lookup_inv (n i : nat) (x : Qc) :
  MarketDataQuery.synthetic_prices n !! i = Some x ->
  x = Qc_of_Z 100 + Qc_of_Z (Z.of_nat i) * half.
Proof.
  intros H. assert (Hi : (i < n)%nat).
  { apply lookup_lt_Some in H. by rewrite synthetic_prices_length in H. }
  rewrite synthetic_prices_lookup in H by done. by injection H.
Qed.

Lemma half_pos : (0 < half)%Qc.
Proof. reflexivity. Qed.

Lemma synthetic_price_increasing (i j : nat) :
  (i < j)%nat ->
  (Qc_of_Z 100 + Qc_of_Z (Z.of_nat i) * half
   < Qc_of_Z 100 + Qc_of_Z (Z.of_nat j) * half)%Qc.
Proof.
  intros Hij. apply Qcplus_lt_mono_l. apply Qcmult_lt_mono_pos_r; [apply half_pos|].
  apply (proj1 (Z2Qc_inj_lt _ _)). lia.
Qed.

(** The rational prices of the tables are the floats of the code: on the
    first 3000 rows [100 + i * 0.5] is computed without rounding. *)
Example synthetic_prices_are_the_floats :
  forallb price_is_exact (seq 0 3000) = true.
Proof. vm_compute. reflexivity. Qed.

(** The statement of C8 fails where [pd.date_range] does not return: the
    aliases in ['T'] and ['H'] that [fetch] hands over for the minute and
    hour frequencies are refused by a pandas that has dropped them.  The
    query ('TEST', 'M1', '2023-01-01', '2023-01-02', '1m', 'test') passes
    construction, and with such a library [fetch] raises instead of
    returning a table. *)
Lemma minute_query_can_raise :
  Calendar.query "TEST" "M1" "2023-01-01" "2023-01-02" "1m" "test"
    = Return (MarketDataQuery.mk "TEST" "M1"
                (datetime.mk 2023 1 1 0 0 0 0) (datetime.mk 2023 1 2 0 0 0 0)
                "1m" "test") /\
  (exists msg : string,
     Calendar.fetch_strict
       (MarketDataQuery.mk "TEST" "M1"
          (datetime.mk 2023 1 1 0 0 0 0) (datetime.mk 2023 1 2 0 0 0 0) "1m" "test")
     = Raise (ValueError msg)) /\
  (forall df,
     Calendar.fetch_strict
       (MarketDataQuery.mk "TEST" "M1"
          (datetime.mk 2023 1 1 0 0 0 0) (datetime.mk 2023 1 2 0 0 0 0) "1m" "test")
       <> Return (inl df)).
Proof. split; [reflexivity|]. split; [by eexists|]. discriminate. Qed.

(** C8, amended.  For a query that passed construction and has source
    'test', [fetch] hands [pd.date_range] the start date, the end date and
    the pandas alias of the requested frequency (1m T, 2m 2T, 5m 5T, 15m 15T,
    30m 30T, 60m 60T, 90m 90T, 1h H, 1d D, 5d 5D, 1wk W, 1mo MS, 3mo 3MS).
    When that call raises, [fetch] raises the same exception.  When it
    returns a calendar sequence, [fetch] returns the table with columns date
    and price whose date column is that sequence, or the single start date
    when the sequence is empty; the table has at least one row, the price
    column has the same length, [price[i] = 100 + i * 0.5], so
    [price[0] = 100] and the prices are strictly increasing. *)
Theorem test_source_table
    (strptime : string -> string -> result datetime.t)
    (date_range : datetime.t -> datetime.t -> string -> result (list datetime.t))
    (frame : Type) (yahoo : option (MarketDataQuery.t -> result frame))
    (symbol tf s e f src : string) (q : MarketDataQuery.t) :
  MarketDataQuery.init strptime symbol tf s e f src = Return q ->
  MarketDataQuery.source q = "test" ->
  exists alias : string,
    (MarketDataQuery.frequency q, alias)
      ∈ [("1m", "T"); ("2m", "2T"); ("5m", "5T"); ("15m", "15T"); ("30m", "30T");
         ("60m", "60T"); ("90m", "90T"); ("1h", "H"); ("1d", "D"); ("5d", "5D");
         ("1wk", "W"); ("1mo", "MS"); ("3mo", "3MS")] /\
    (forall x : exn,
       date_range (MarketDataQuery.start_date q) (MarketDataQuery.end_date q) alias
         = Raise x ->
       MarketDataQuery.fetch date_range frame yahoo q = Raise x) /\
    (forall dates : list datetime.t,
       date_range (MarketDataQuery.start_date q) (MarketDataQuery.end_date q) alias
         = Return dates ->
       exists df : DataFrame,
         MarketDataQuery.fetch date_range frame yahoo q = Return (inl df) /\
         (dates <> [] -> date df = dates) /\
         (dates = [] ->
            date df = [MarketDataQuery.start_date q] /\ price df = [Qc_of_Z 100]) /\
         List.length (price df) = List.length (date df) /\
         (0 < List.length (date df))%nat /\
         (forall i : nat, (i < List.length (date df))%nat ->
            price df !! i = Some (Qc_of_Z 100 + Qc_of_Z (Z.of_nat i) * half)) /\
         price df !! 0%nat = Some (Qc_of_Z 100) /\
         (forall (i j : nat) (x y : Qc),
            (i < j)%nat -> price df !! i = Some x -> price df !! j = Some y ->
            (x < y)%Qc)).
Proof.
  intros Hq Hsrc.
  apply init_validated, validate_passes in Hq as [Hle Hf].
  destruct (freq_map_covers _ Hf) as [a Ha].
  exists a. split; [by apply elem_of_list_to_map_2|].
  rewrite (fetch_test date_range frame yahoo q a Hsrc Ha).
  split; [by intros x ->|]. intros dates ->.
  eexists. split; [reflexivity|].
  unfold MarketDataQuery.test_table. cbv zeta. rewrite Hle, andb_true_r.
  cbn [date price].
  assert (Hpos : (0 < List.length
                       (if (List.length dates =? 0)%nat
                        then [MarketDataQuery.start_date q] else dates))%nat).
  { destruct dates; simpl; lia. }
  split_and!.
  - intros Hne. by destruct dates.
  - intros ->. split; [done|].
    change ([Qc_of_Z 100 + Qc_of_Z (Z.of_nat 0) * half] = [Qc_of_Z 100]).
    f_equal. num_eq.
  - apply synthetic_prices_length.
  - done.
  - intros i Hi. by apply synthetic_prices_lookup.
  - rewrite synthetic_prices_lookup by done. f_equal. num_eq.
  - intros i j x y Hij Hx Hy.
    apply synthetic_prices_lookup_inv in Hx as ->.
    apply synthetic_prices_lookup_inv in Hy as ->.
    by apply synthetic_price_increasing.
Qed.

Lemma test_source_table_witness :
  exists df,
    Calendar.fetch (MarketDataQuery.mk "TEST" "W1"
                      (datetime.mk 2023 1 1 0 0 0 0) (datetime.mk 2023 1 31 0 0 0 0)
                      "1wk" "test") = Return (inl df) /\
    date df = [datetime.mk 2023 1 1 0 0 0 0; datetime.mk 2023 1 8 0 0 0 0;
               datetime.mk 2023 1 15 0 0 0 0; datetime.mk 2023 1 22 0 0 0 0;
               datetime.mk 2023 1 29 0 0 0 0] /\
    price df !! 4%nat = Some (Qc_of_Z 102).
Proof.
  destruct (test_source_table Calendar.strptime Calendar.date_range Empty_set
              Calendar.no_provider
              "TEST" "W1" "2023-01-01" "2023-01-31" "1wk" "test"
              (MarketDataQuery.mk "TEST" "W1"
                 (datetime.mk 2023 1 1 0 0 0 0) (datetime.mk 2023 1 31 0 0 0 0)
                 "1wk" "test")
              eq_refl eq_refl)
    as (alias & Halias & _ & Hret).
  assert (Ha : alias = "W").
  { cbn [MarketDataQuery.frequency] in Halias.
    repeat (apply elem_of_cons in Halias as [Halias|Halias];
            [by injection Halias|]).
    by apply elem_of_nil in Halias. }
  subst alias.
  destruct (Hret _ eq_refl) as (df & Hfetch & Hdates & _ & _ & _ & Hprice & _).
  exists df. split; [exact Hfetch|].
  assert (Hd : date df = [datetime.mk 2023 1 1 0 0 0 0; datetime.mk 2023 1 8 0 0 0 0;
                          datetime.mk 2023 1 15 0 0 0 0; datetime.mk 2023 1 22 0 0 0 0;
                          datetime.mk 2023 1 29 0 0 0 0]).
  { apply Hdates. discriminate. }
  split; [exact Hd|].
  rewrite Hprice by (rewrite Hd; simpl; lia). f_equal. num_eq.
Defined.

(** * Further properties of the module *)

(** ** PriceBar *)

Lemma ext_leb_total (x y : ext) : ext_leb x y = true \/ ext_leb y x = true.
Proof.
  destruct x as [|a|], y as [|b|]; simpl; auto.
  destruct (Qclt_le_dec b a) as [H|H].
  - right. apply bool_decide_eq_true. by apply Qclt_le_weak.
  - left. by apply bool_decide_eq_true.
Qed.

(** X1. A bar is never bullish and bearish at once.  It is neither when
    its open and close compare equal; and when it is neither, its open and
    close compare equal unless one of them is a NaN, which compares false
    with everything. *)
Theorem bullish_bearish_exclusive (bar : PriceBar.t) :
  PriceBar.is_bullish bar && PriceBar.is_bearish bar = false /\
  (num_eqb (PriceBar.open bar) (PriceBar.close bar) = true ->
     PriceBar.is_bullish bar = false /\ PriceBar.is_bearish bar = false) /\
  (PriceBar.is_bullish bar = false -> PriceBar.is_bearish bar = false ->
     num_eqb (PriceBar.open bar) (PriceBar.close bar) = true \/
     value (PriceBar.open bar) = None \/ value (PriceBar.close bar) = None).
Proof.
  unfold PriceBar.is_bullish, PriceBar.is_bearish, num_lt, num_eqb.
  destruct (value (PriceBar.open bar)) as [x|], (value (PriceBar.close bar)) as [y|];
    try (split_and!; by auto).
  destruct (ext_leb_total x y) as [H|H]; rewrite H;
    destruct (ext_leb y x) eqn:E1; destruct (ext_leb x y) eqn:E2; simpl;
    split_and!; try done; auto.
Qed.

Lemma bullish_bearish_exclusive_witness :
  PriceBar.is_bullish nan_bar = false /\
  PriceBar.is_bearish nan_bar = false /\
  (num_eqb (PriceBar.open nan_bar) (PriceBar.close nan_bar) = true \/
   value (PriceBar.open nan_bar) = None \/ value (PriceBar.close nan_bar) = None).
Proof.
  split; [reflexivity|]. split; [reflexivity|].
  apply (bullish_bearish_exclusive nan_bar); reflexivity.
Defined.

(** ** MarketDataQuery: the edges of validation and of fetch *)

Lemma datetime_compare_refl (d : datetime.t) : datetime.compare d d = Eq.
Proof. unfold datetime.compare. by rewrite !Z.compare_refl. Qed.

Lemma freq_map_none (f : string) :
  MarketDataQuery.freq_map !! f = None <-> f ∉ MarketDataQuery.valid_frequencies.
Proof.
  split.
  - intros Hn Hin. destruct (freq_map_covers f Hin) as [a Ha]. congruence.
  - intros Hnin. destruct (MarketDataQuery.freq_map !! f) as [a|] eqn:E; [|done].
    by destruct (freq_map_lookup f a E).
Qed.

(** X3. The date check comes first: with the start after the end the
    constructor raises the date error whatever the frequency, valid or not.
    A query that starts and ends on the same date string is accepted when
    the frequency is valid, although the message says 'before'. *)
Theorem construction_date_first
    (strptime : string -> string -> result datetime.t)
    (symbol tf s e f src : string) (ds de : datetime.t) :
  strptime s "%Y-%m-%d" = Return ds ->
  strptime e "%Y-%m-%d" = Return de ->
  (datetime.gt ds de = true ->
     MarketDataQuery.init strptime symbol tf s e f src
       = Raise (ValueError "Start date must be before end date")) /\
  (f ∈ MarketDataQuery.valid_frequencies ->
     MarketDataQuery.init strptime symbol tf s s f src
       = Return (MarketDataQuery.mk symbol tf ds ds f src)).
Proof.
  intros Hs He. split.
  - intros Hgt. rewrite (init_parsed strptime _ _ _ _ _ _ _ _ Hs He).
    unfold MarketDataQuery._validate.
    cbn [MarketDataQuery.start_date MarketDataQuery.end_date]. by rewrite Hgt.
  - intros Hf. rewrite (init_parsed strptime _ _ _ _ _ _ _ _ Hs Hs).
    assert (Hv : MarketDataQuery._validate (MarketDataQuery.mk symbol tf ds ds f src)
                 = Return tt).
    { apply validate_passes. split; [|done].
      cbn [MarketDataQuery.start_date MarketDataQuery.end_date].
      unfold datetime.le. by rewrite datetime_compare_refl. }
    by rewrite Hv.
Qed.

Lemma construction_date_first_witness :
  Calendar.query "TEST" "D1" "2023-01-05" "2023-01-01" "yearly" "test"
    = Raise (ValueError "Start date must be before end date") /\
  Calendar.query "TEST" "D1" "2023-01-05" "2023-01-05" "1h" "test"
    = Return (MarketDataQuery.mk "TEST" "D1"
                (datetime.mk 2023 1 5 0 0 0 0) (datetime.mk 2023 1 5 0 0 0 0)
                "1h" "test").
Proof.
  destruct (construction_date_first Calendar.strptime
              "TEST" "D1" "2023-01-05" "2023-01-01" "yearly" "test"
              (datetime.mk 2023 1 5 0 0 0 0) (datetime.mk 2023 1 1 0 0 0 0)
              eq_refl eq_refl) as [Hdate _].
  destruct (construction_date_first Calendar.strptime
              "TEST" "D1" "2023-01-05" "2023-01-01" "1h" "test"
              (datetime.mk 2023 1 5 0 0 0 0) (datetime.mk 2023 1 1 0 0 0 0)
              eq_refl eq_refl) as [_ Hsame].
  split; [apply Hdate; reflexivity | apply Hsame].
  apply str_in_true. reflexivity.
Defined.

(** X4. [fetch] does not validate again; on any query object it raises in
    exactly these situations: source 'test' with a frequency outside the 13
    codes (the message is the literal text, braces included), source 'test'
    when [pd.date_range] raises, source 'yahoo' without the provider, source
    'yahoo' when the provider raises, and any other source, whose name the
    message carries.  An exception of a library call comes out as it is. *)
Theorem fetch_raises_iff
    (date_range : datetime.t -> datetime.t -> string -> result (list datetime.t))
    (frame : Type) (yahoo : option (MarketDataQuery.t -> result frame))
    (q : MarketDataQuery.t) (x : exn) :
  MarketDataQuery.fetch date_range frame yahoo q = Raise x <->
  ((MarketDataQuery.source q = "test" /\
    (MarketDataQuery.frequency q ∉ MarketDataQuery.valid_frequencies) /\
    x = ValueError "Test source does not support frequency: {self.frequency}") \/
   (MarketDataQuery.source q = "test" /\
    exists a, MarketDataQuery.freq_map !! MarketDataQuery.frequency q = Some a /\
      date_range (MarketDataQuery.start_date q) (MarketDataQuery.end_date q) a
        = Raise x) \/
   (MarketDataQuery.source q = "yahoo" /\ yahoo = None /\
    x = ImportError "yfinance is not installed. Cannot use 'yahoo' source.") \/
   (MarketDataQuery.source q = "yahoo" /\
    exists download, yahoo = Some download /\ download q = Raise x) \/
   (MarketDataQuery.source q <> "test" /\ MarketDataQuery.source q <> "yahoo" /\
    x = ValueError ("Unknown source: " ++ MarketDataQuery.source q))).
Proof.
  destruct (String.eqb (MarketDataQuery.source q) "test") eqn:Et.
  - apply String.eqb_eq in Et.
    destruct (MarketDataQuery.freq_map !! MarketDataQuery.frequency q) as [a|] eqn:Ea.
    + rewrite (fetch_test date_range frame yahoo q a Et Ea).
      destruct (freq_map_lookup _ _ Ea) as [Hin _]. split.
      * intros Hr. right; left. split; [done|]. exists a. split; [done|].
        revert Hr. destruct (date_range _ _ a); [discriminate|by intros [= ->]].
      * intros [(_ & Hnin & _)|[(_ & a' & [= <-] & ->)|[(Hy & _)|[(Hy & _)|(Hnt & _)]]]];
          try done; rewrite Et in Hy; discriminate.
    + unfold MarketDataQuery.fetch. rewrite Et, Ea. simpl.
      apply freq_map_none in Ea. split.
      * intros [= <-]. by left.
      * intros [(_ & _ & ->)|[(_ & a' & Ha' & _)|[(Hy & _)|[(Hy & _)|(Hnt & _)]]]];
          try done; rewrite Et in Hy; discriminate.
  - unfold MarketDataQuery.fetch. rewrite Et. apply String.eqb_neq in Et.
    destruct (String.eqb (MarketDataQuery.source q) "yahoo") eqn:Ey.
    + apply String.eqb_eq in Ey. destruct yahoo as [download|].
      * simpl. split.
        -- intros Hr. do 3 right. left. split; [done|]. exists download.
           split; [done|]. revert Hr.
           destruct (download q); [discriminate|by intros [= ->]].
        -- intros [(Ht & _)|[(Ht & _)|[(_ & Hn & _)|[(_ & d & [= <-] & ->)|(_ & Hny & _)]]]];
             done.
      * split.
        -- intros [= <-]. do 2 right. left. done.
        -- intros [(Ht & _)|[(Ht & _)|[(_ & _ & ->)|[(_ & d & Hd & _)|(_ & Hny & _)]]]];
             done.
    + apply String.eqb_neq in Ey. split.
      * intros [= <-]. do 4 right. done.
      * intros [(Ht & _)|[(Ht & _)|[(Hy & _)|[(Hy & _)|(_ & _ & ->)]]]]; done.
Qed.

Lemma fetch_raises_iff_witness :
  Calendar.fetch (MarketDataQuery.mk "TEST" "D1"
                    (datetime.mk 2023 1 1 0 0 0 0) (datetime.mk 2023 1 5 0 0 0 0)
                    "1d" "bloomberg")
    = Raise (ValueError "Unknown source: bloomberg").
Proof.
  apply (fetch_raises_iff Calendar.date_range Empty_set Calendar.no_provider
           (MarketDataQuery.mk "TEST" "D1"
              (datetime.mk 2023 1 1 0 0 0 0) (datetime.mk 2023 1 5 0 0 0 0)
              "1d" "bloomberg")).
  do 4 right. split; [discriminate|]. split; [discriminate|reflexivity].
Defined.

(** X5. On the test source the two columns of the table always have the
    same length, also for a query object whose dates were put out of order
    after construction; the table is empty exactly when the calendar
    sequence is empty and the start is after the end (the one-row fallback
    needs start <= end). *)
Theorem test_table_empty_iff
    (date_range : datetime.t -> datetime.t -> string -> result (list datetime.t))
    (frame : Type) (yahoo : option (MarketDataQuery.t -> result frame))
    (q : MarketDataQuery.t) :
  MarketDataQuery.source q = "test" ->
  MarketDataQuery.frequency q ∈ MarketDataQuery.valid_frequencies ->
  exists alias : string,
    MarketDataQuery.freq_map !! MarketDataQuery.frequency q = Some alias /\
    forall dates : list datetime.t,
      date_range (MarketDataQuery.start_date q) (MarketDataQuery.end_date q) alias
        = Return dates ->
      exists df : DataFrame,
        MarketDataQuery.fetch date_range frame yahoo q = Return (inl df) /\
        List.length (price df) = List.length (date df) /\
        (date df = [] <->
           dates = [] /\
           datetime.gt (MarketDataQuery.start_date q) (MarketDataQuery.end_date q)
             = true).
Proof.
  intros Hsrc Hf. destruct (freq_map_covers _ Hf) as [a Ha].
  exists a. split; [done|]. intros dates Hd.
  rewrite (fetch_test date_range frame yahoo q a Hsrc Ha), Hd.
  eexists. split; [reflexivity|].
  unfold MarketDataQuery.test_table. cbv zeta. cbn [date price].
  split; [apply synthetic_prices_length|].
  rewrite datetime_le_not_gt.
  destruct dates as [|d l]; simpl.
  - destruct (datetime.gt _ _); simpl; split; try done. by intros [_ ?].
  - split; [done | by intros [? _]].
Qed.

Lemma test_table_empty_iff_witness :
  exists df,
    Calendar.fetch (MarketDataQuery.mk "TEST" "D1"
                      (datetime.mk 2023 1 5 0 0 0 0) (datetime.mk 2023 1 1 0 0 0 0)
                      "1d" "test") = Return (inl df) /\
    date df = [].
Proof.
  destruct (test_table_empty_iff Calendar.date_range Empty_set Calendar.no_provider
              (MarketDataQuery.mk "TEST" "D1"
                 (datetime.mk 2023 1 5 0 0 0 0) (datetime.mk 2023 1 1 0 0 0 0)
                 "1d" "test")
              eq_refl ltac:(apply str_in_true; reflexivity))
    as (alias & Ha & Hret).
  injection Ha as <-.
  destruct (Hret [] eq_refl) as (df & Hfetch & _ & Hempty).
  exists df. split; [exact Hfetch|]. apply Hempty. split; reflexivity.
Defined.

(** ** MockBrokerConnector.getMarketData *)

(** X6. The table of [getMarketData] has one row per timestamp of the daily
    calendar sequence and none otherwise (no fallback row): its three
    columns have that length, every entry of the symbol column is the
    symbol asked for, the i-th price is [100 + i * 0.5], and the result does
    not depend on the broker's state. *)
Theorem market_data_columns
    (D : Type) (date_range : D -> D -> string -> result (list datetime.t))
    (b b' : MockBrokerConnector.t) (sym : string) (s e : D) :
  MockBrokerConnector.getMarketData D date_range b' sym s e
    = MockBrokerConnector.getMarketData D date_range b sym s e /\
  (forall x : exn, date_range s e "D" = Raise x ->
     MockBrokerConnector.getMarketData D date_range b sym s e = Raise x) /\
  (forall dates : list datetime.t, date_range s e "D" = Return dates ->
     exists md : MockBrokerConnector.MarketData,
       MockBrokerConnector.getMarketData D date_range b sym s e = Return md /\
       MockBrokerConnector.md_date md = dates /\
       List.length (MockBrokerConnector.md_symbol md) = List.length dates /\
       List.length (MockBrokerConnector.md_price md) = List.length dates /\
       (forall (i : nat) (x : string),
          MockBrokerConnector.md_symbol md !! i = Some x -> x = sym) /\
       (forall (i : nat) (x : Qc),
          MockBrokerConnector.md_price md !! i = Some x <->
          (i < List.length dates)%nat /\
          x = Qc_of_Z 100 + Qc_of_Z (Z.of_nat i) * half)).
Proof.
  unfold MockBrokerConnector.getMarketData. split; [done|].
  split; [by intros x ->|]. intros dates ->. simpl.
  eexists. split; [reflexivity|].
  cbn [MockBrokerConnector.md_date MockBrokerConnector.md_symbol
       MockBrokerConnector.md_price].
  change ((fun i : nat => Qc_of_Z 100 + Qc_of_Z (Z.of_nat i) * half)
            <$> seq 0 (List.length dates))
    with (MarketDataQuery.synthetic_prices (List.length dates)).
  split_and!.
  - done.
  - apply length_replicate.
  - apply synthetic_prices_length.
  - intros i x Hx. apply lookup_replicate in Hx. by destruct Hx.
  - intros i x. split.
    + intros Hx. split; [|by apply synthetic_prices_lookup_inv in Hx].
      apply lookup_lt_Some in Hx. by rewrite synthetic_prices_length in Hx.
    + intros [Hi ->]. by apply synthetic_prices_lookup.
Qed.

Lemma market_data_columns_witness :
  exists md,
    MockBrokerConnector.getMarketData datetime.t Calendar.date_range
      MockBrokerConnector.init "TEST"
      (datetime.mk 2023 1 1 0 0 0 0) (datetime.mk 2023 1 5 0 0 0 0) = Return md /\
    List.length (MockBrokerConnector.md_price md) = 5%nat.
Proof.
  destruct (market_data_columns datetime.t Calendar.date_range
              MockBrokerConnector.init MockBrokerConnector.init "TEST"
              (datetime.mk 2023 1 1 0 0 0 0) (datetime.mk 2023 1 5 0 0 0 0))
    as (_ & _ & Hret).
  destruct (Hret _ eq_refl) as (md & Hmd & _ & _ & Hlen & _).
  exists md. split; [exact Hmd | exact Hlen].
Defined.

Lemma freq_map_daily : MarketDataQuery.freq_map !! "1d" = Some "D".
Proof. vm_compute. reflexivity. Qed.

(** X7. [getMarketData] and the test source of [MarketDataQuery] agree on
    a daily query whenever the calendar sequence is not empty: same dates,
    same prices. *)
Theorem market_data_agrees_with_fetch
    (date_range : datetime.t -> datetime.t -> string -> result (list datetime.t))
    (frame : Type) (yahoo : option (MarketDataQuery.t -> result frame))
    (b : MockBrokerConnector.t) (sym : string) (q : MarketDataQuery.t)
    (dates : list datetime.t) :
  MarketDataQuery.source q = "test" ->
  MarketDataQuery.frequency q = "1d" ->
  date_range (MarketDataQuery.start_date q) (MarketDataQuery.end_date q) "D"
    = Return dates ->
  dates <> [] ->
  exists md : MockBrokerConnector.MarketData,
    MockBrokerConnector.getMarketData datetime.t date_range b sym
      (MarketDataQuery.start_date q) (MarketDataQuery.end_date q) = Return md /\
    MockBrokerConnector.md_date md = dates /\
    MarketDataQuery.fetch date_range frame yahoo q
      = Return (inl (mkDataFrame (MockBrokerConnector.md_date md)
                                 (MockBrokerConnector.md_price md))).
Proof.
  intros Hsrc Hfreq Hd Hne.
  assert (Ha : MarketDataQuery.freq_map !! MarketDataQuery.frequency q = Some "D").
  { rewrite Hfreq. apply freq_map_daily. }
  rewrite (fetch_test date_range frame yahoo q "D" Hsrc Ha), Hd.
  unfold MockBrokerConnector.getMarketData. rewrite Hd. simpl.
  eexists. split; [reflexivity|]. split; [done|].
  cbn [MockBrokerConnector.md_date MockBrokerConnector.md_price].
  unfold MarketDataQuery.test_table. by destruct dates.
Qed.

Lemma market_data_agrees_with_fetch_witness :
  exists md,
    MockBrokerConnector.getMarketData datetime.t Calendar.date_range
      MockBrokerConnector.init "TEST"
      (datetime.mk 2023 1 1 0 0 0 0) (datetime.mk 2023 1 5 0 0 0 0) = Return md /\
    Calendar.fetch (MarketDataQuery.mk "TEST" "D1"
                      (datetime.mk 2023 1 1 0 0 0 0) (datetime.mk 2023 1 5 0 0 0 0)
                      "1d" "test")
      = Return (inl (mkDataFrame (MockBrokerConnector.md_date md)
                                 (MockBrokerConnector.md_price md))).
Proof.
  destruct (market_data_agrees_with_fetch Calendar.date_range Empty_set
              Calendar.no_provider MockBrokerConnector.init "TEST"
              (MarketDataQuery.mk "TEST" "D1"
                 (datetime.mk 2023 1 1 0 0 0 0) (datetime.mk 2023 1 5 0 0 0 0)
                 "1d" "test")
              _ eq_refl eq_refl eq_refl ltac:(discriminate))
    as (md & Hmd & _ & Hfetch).
  exists md. split; [exact Hmd | exact Hfetch].
Defined.

(** ** Orders: what execute keeps, and how fills depend on the price *)

Lemma execute_frame (o o' : TradeOrder.t) (p : num) :
  TradeOrder.execute o p = Return o' ->
  TradeOrder.cls o' = TradeOrder.cls o /\
  TradeOrder.symbol o' = TradeOrder.symbol o /\
  TradeOrder.side o' = TradeOrder.side o /\
  TradeOrder.quantity o' = TradeOrder.quantity o /\
  TradeOrder.order_type o' = TradeOrder.order_type o /\
  TradeOrder.timestamp o' = TradeOrder.timestamp o /\
  (TradeOrder.cls o = LimitOrder_cls -> TradeOrder.price o' = TradeOrder.price o).
Proof.
  unfold TradeOrder.execute, TradeOrder.MarketOrder_execute,
    TradeOrder.LimitOrder_execute, py_and, le_opt, ge_opt.
  destruct (TradeOrder.cls o) eqn:Hc; [discriminate| |].
  - intros [= <-]. simpl. by rewrite Hc.
  - destruct (String.eqb (TradeOrder.side o) "BUY"),
      (String.eqb (TradeOrder.side o) "SELL"),
      (TradeOrder.price o) as [L|] eqn:EP; simpl;
      try destruct (num_le p L); try destruct (num_ge p L); simpl;
      try discriminate; intros [= <-]; simpl; by rewrite ?Hc.
Qed.

(** X8. [execute] never touches the class, symbol, side, quantity, order
    type or timestamp of an order, and on a LimitOrder it never touches the
    price either: only a MarketOrder has its price overwritten. *)
Theorem execute_keeps_identity (o o' : TradeOrder.t) (p : num) :
  TradeOrder.execute o p = Return o' ->
  TradeOrder.cls o' = TradeOrder.cls o /\
  TradeOrder.symbol o' = TradeOrder.symbol o /\
  TradeOrder.side o' = TradeOrder.side o /\
  TradeOrder.quantity o' = TradeOrder.quantity o /\
  TradeOrder.order_type o' = TradeOrder.order_type o /\
  TradeOrder.timestamp o' = TradeOrder.timestamp o /\
  (TradeOrder.cls o = LimitOrder_cls -> TradeOrder.price o' = TradeOrder.price o).
Proof. apply execute_frame. Qed.

Lemma execute_keeps_identity_witness :
  TradeOrder.symbol
    (TradeOrder.set_status (TradeOrder.LimitOrder "goog" "buy" (int 10) (int 150) ts) filled)
    = TradeOrder.symbol (TradeOrder.LimitOrder "goog" "buy" (int 10) (int 150) ts).
Proof.
  apply (execute_keeps_identity
           (TradeOrder.LimitOrder "goog" "buy" (int 10) (int 150) ts)
           (TradeOrder.set_status
              (TradeOrder.LimitOrder "goog" "buy" (int 10) (int 150) ts) filled)
           (int 149)).
  reflexivity.
Defined.

(** X9. Fills of a LimitOrder are monotone in the market price: a BUY that
    fills at [p] fills at every lower price, a SELL that fills at [p] fills
    at every higher price. *)
Theorem limit_fill_monotone (o o1 : TradeOrder.t) (p p' L : num) :
  TradeOrder.cls o = LimitOrder_cls ->
  TradeOrder.price o = Some L ->
  TradeOrder.status o <> filled ->
  TradeOrder.execute o p = Return o1 ->
  TradeOrder.status o1 = filled ->
  (TradeOrder.side o = "BUY" -> p' ≤ p ->
     TradeOrder.execute o p' = Return (TradeOrder.set_status o filled)) /\
  (TradeOrder.side o = "SELL" -> p ≤ p' ->
     TradeOrder.execute o p' = Return (TradeOrder.set_status o filled)).
Proof.
  intros Hc Hp Hnf He Hf. split; intros Hs Hle.
  - rewrite (limit_execute_buy o p L) in He by done.
    rewrite (limit_execute_buy o p' L) by done.
    destruct (num_le p L) eqn:E; [|by injection He as <-].
    apply num_le_true in E.
    assert (Hle' : p' ≤ L) by (by apply num_leq_trans with p).
    apply num_le_true in Hle'. by rewrite Hle'.
  - rewrite (limit_execute_sell o p L) in He by done.
    rewrite (limit_execute_sell o p' L) by done.
    destruct (num_ge p L) eqn:E; [|by injection He as <-].
    apply num_ge_true in E.
    assert (Hle' : L ≤ p') by (by apply num_leq_trans with p).
    apply num_ge_true in Hle'. by rewrite Hle'.
Qed.

Lemma limit_fill_monotone_witness :
  TradeOrder.execute (TradeOrder.LimitOrder "goog" "buy" (int 10) (int 150) ts) (int 149)
    = Return (TradeOrder.set_status
                (TradeOrder.LimitOrder "goog" "buy" (int 10) (int 150) ts) filled).
Proof.
  destruct (limit_fill_monotone
              (TradeOrder.LimitOrder "goog" "buy" (int 10) (int 150) ts)
              (TradeOrder.set_status
                 (TradeOrder.LimitOrder "goog" "buy" (int 10) (int 150) ts) filled)
              (int 150) (int 149) (int 150)
              eq_refl eq_refl ltac:(discriminate) eq_refl eq_refl) as [Hbuy _].
  apply Hbuy.
  - reflexivity.
  - apply num_le_true. vm_compute. reflexivity.
Defined.

(** ** Normalised names *)

Lemma upper_ascii_idempotent (c : ascii) : upper_ascii (upper_ascii c) = upper_ascii c.
Proof. destruct c as [[] [] [] [] [] [] [] []]; reflexivity. Qed.

Lemma upper_idempotent (s : string) : upper (upper s) = upper s.
Proof.
  induction s as [|c s IH]; simpl; [done|].
  by rewrite upper_ascii_idempotent, IH.
Qed.

(** X10. The receipt of [submitOrder] carries the upper-cased symbol and
    side of the order.  For an order made by a constructor they are the
    order's own symbol and side, because the constructor has upper-cased
    them already and upper-casing twice changes nothing. *)
Theorem receipt_names_the_order :
  (forall (b b' : MockBrokerConnector.t) (id : oid) (o o' : TradeOrder.t)
          (now : string) (r : OrderReceipt.t),
     MockBrokerConnector.submitOrder b id o now = (b', o', Return r) ->
     OrderReceipt.symbol r = upper (TradeOrder.symbol o) /\
     OrderReceipt.side r = upper (TradeOrder.side o)) /\
  (forall (b b' : MockBrokerConnector.t) (id : oid) (c : order_class)
          (symbol side order_type t0 : string) (quantity : num) (price : option num)
          (o' : TradeOrder.t) (now : string) (r : OrderReceipt.t),
     MockBrokerConnector.submitOrder b id
       (TradeOrder.init c symbol side quantity order_type price t0) now
       = (b', o', Return r) ->
     OrderReceipt.symbol r = upper symbol /\
     OrderReceipt.symbol r = TradeOrder.symbol o' /\
     OrderReceipt.side r = upper side /\
     OrderReceipt.side r = TradeOrder.side o').
Proof.
  assert (Hgen : forall b b' id o o' now r,
            MockBrokerConnector.submitOrder b id o now = (b', o', Return r) ->
            TradeOrder.symbol o' = TradeOrder.symbol o /\
            TradeOrder.side o' = TradeOrder.side o /\
            OrderReceipt.symbol r = upper (TradeOrder.symbol o) /\
            OrderReceipt.side r = upper (TradeOrder.side o)).
  { intros b b' id o o' now r Hs.
    destruct (submitOrder_returns _ _ _ _ _ _ _ Hs) as (He & _ & ->).
    unfold TradeOrder.execute, TradeOrder.MarketOrder_execute,
      TradeOrder.LimitOrder_execute, py_and, le_opt, ge_opt in He.
    destruct (TradeOrder.cls o); [discriminate| |].
    - by injection He as <-.
    - destruct (String.eqb (TradeOrder.side o) "BUY"),
        (String.eqb (TradeOrder.side o) "SELL"),
        (TradeOrder.price o) as [L|]; simpl in He;
        try destruct (num_le (MockBrokerConnector.current_market_price b) L);
        try destruct (num_ge (MockBrokerConnector.current_market_price b) L);
        simpl in He; try discriminate; by injection He as <-. }
  split.
  - intros b b' id o o' now r Hs. by destruct (Hgen _ _ _ _ _ _ _ Hs) as (_ & _ & ? & ?).
  - intros b b' id c symbol side order_type t0 quantity price o' now r Hs.
    destruct (Hgen _ _ _ _ _ _ _ Hs) as (Hsym & Hside & Hrs & Hrd).
    simpl in Hsym, Hside, Hrs, Hrd. rewrite upper_idempotent in Hrs, Hrd.
    by rewrite Hsym, Hside.
Qed.

Lemma receipt_names_the_order_witness :
  OrderReceipt.symbol
    (MockBrokerConnector.receipt_of 1
       (TradeOrder.set_status
          (TradeOrder.set_price (TradeOrder.MarketOrder "aapl" "buy" (int 10) ts)
             (Some (float 100))) filled) ts) = upper "aapl".
Proof.
  destruct receipt_names_the_order as [_ Hinit].
  destruct (Hinit MockBrokerConnector.init
              (MockBrokerConnector.submitOrder MockBrokerConnector.init 1
                 (TradeOrder.MarketOrder "aapl" "buy" (int 10) ts) ts).1.1
              1%nat MarketOrder_cls "aapl" "buy" "market" ts (int 10) None
              (TradeOrder.set_status
                 (TradeOrder.set_price (TradeOrder.MarketOrder "aapl" "buy" (int 10) ts)
                    (Some (float 100))) filled)
              ts
              (MockBrokerConnector.receipt_of 1
                 (TradeOrder.set_status
                    (TradeOrder.set_price (TradeOrder.MarketOrder "aapl" "buy" (int 10) ts)
                       (Some (float 100))) filled) ts)
              eq_refl) as (H & _).
  exact H.
Defined.

(** ** The broker: who fills, at what price, and when it raises *)


(** What the three statements of a branch leave behind, whether or not
    one of them raised. *)
Lemma book_frame (cash_op pos_op : num -> num -> result num)
    (b b' : MockBrokerConnector.t) (o : TradeOrder.t) (r : result unit) :
  MockBrokerConnector.book cash_op pos_op b o = (b', r) ->
  MockBrokerConnector.current_market_price b'
    = MockBrokerConnector.current_market_price b /\
  MockBrokerConnector.order_history b' = MockBrokerConnector.order_history b /\
  (forall s : string, s <> TradeOrder.symbol o ->
     MockBrokerConnector.positions b' !! s = MockBrokerConnector.positions b !! s).
Proof.
  unfold MockBrokerConnector.book.
  destruct (mul_opt _ _) as [amount|]; [|by intros [= <- _]].
  destruct (cash_op _ amount) as [cash|]; [|by intros [= <- _]].
  cbv zeta. destruct (pos_op _ _) as [q|]; intros [= <- _]; simpl; [|done].
  split_and!; try done. intros s Hne. by rewrite lookup_insert_ne.
Qed.

Lemma settle_frame (b b' : MockBrokerConnector.t) (o : TradeOrder.t)
    (r : result unit) :
  MockBrokerConnector.settle b o = (b', r) ->
  MockBrokerConnector.current_market_price b'
    = MockBrokerConnector.current_market_price b /\
  MockBrokerConnector.order_history b' = MockBrokerConnector.order_history b /\
  (forall s : string, s <> TradeOrder.symbol o ->
     MockBrokerConnector.positions b' !! s = MockBrokerConnector.positions b !! s).
Proof.
  unfold MockBrokerConnector.settle.
  destruct (decide _); [|by intros [= <- _]].
  destruct (String.eqb _ "BUY"); [apply book_frame|].
  destruct (String.eqb _ "SELL"); [apply book_frame|by intros [= <- _]].
Qed.







(** ** The broker: what a call leaves alone *)

Lemma submitOrder_frame (b b' : MockBrokerConnector.t) (id : oid)
    (o o' : TradeOrder.t) (now : string) (r : result OrderReceipt.t) :
  MockBrokerConnector.submitOrder b id o now = (b', o', r) ->
  MockBrokerConnector.current_market_price b'
    = MockBrokerConnector.current_market_price b /\
  (forall s : string, s <> TradeOrder.symbol o ->
     MockBrokerConnector.positions b' !! s = MockBrokerConnector.positions b !! s) /\
  MockBrokerConnector.order_history b'
    = (MockBrokerConnector.order_history b
       ++ match TradeOrder.execute o (MockBrokerConnector.current_market_price b) with
          | Return _ => [id]
          | Raise _ => []
          end)%list /\
  (forall rc, r = Return rc ->
     MockBrokerConnector.order_history b'
       = (MockBrokerConnector.order_history b ++ [id])%list).
Proof.
  unfold MockBrokerConnector.submitOrder.
  destruct (TradeOrder.execute o _) as [o1|e] eqn:He.
  - destruct (execute_frame _ _ _ He) as (_ & Hsym & _).
    destruct (MockBrokerConnector.settle _ o1) as [b1 r1] eqn:Hs.
    destruct (settle_frame _ _ _ _ Hs) as (Hp & Hh & Hpos).
    rewrite Hsym in Hpos.
    destruct r1 as [[]|y]; intros [= <- <- <-]; by rewrite Hh.
  - intros [= <- <- <-]. rewrite app_nil_r. split_and!; try done.
Qed.

(** X13. A [submitOrder] call never changes the broker's market price,
    never touches the position of a symbol other than the order's, and
    appends the order to the history exactly when [execute] returned, so in
    every call that returns a receipt. *)
Theorem submit_touches_one_symbol (b b' : MockBrokerConnector.t) (id : oid)
    (o o' : TradeOrder.t) (now : string) (r : result OrderReceipt.t) :
  MockBrokerConnector.submitOrder b id o now = (b', o', r) ->
  MockBrokerConnector.current_market_price b'
    = MockBrokerConnector.current_market_price b /\
  (forall s : string, s <> TradeOrder.symbol o ->
     MockBrokerConnector.positions b' !! s = MockBrokerConnector.positions b !! s) /\
  MockBrokerConnector.order_history b'
    = (MockBrokerConnector.order_history b
       ++ match TradeOrder.execute o (MockBrokerConnector.current_market_price b) with
          | Return _ => [id]
          | Raise _ => []
          end)%list /\
  (forall rc, r = Return rc ->
     MockBrokerConnector.order_history b'
       = (MockBrokerConnector.order_history b ++ [id])%list).
Proof. apply submitOrder_frame. Qed.

Lemma submit_touches_one_symbol_witness :
  MockBrokerConnector.positions
    (MockBrokerConnector.submitOrder MockBrokerConnector.init 1
       (TradeOrder.MarketOrder "AAPL" "buy" (int 10) ts) ts).1.1 !! "MSFT"
    = MockBrokerConnector.positions MockBrokerConnector.init !! "MSFT".
Proof.
  destruct (submit_touches_one_symbol MockBrokerConnector.init
              (MockBrokerConnector.submitOrder MockBrokerConnector.init 1
                 (TradeOrder.MarketOrder "AAPL" "buy" (int 10) ts) ts).1.1
              1%nat (TradeOrder.MarketOrder "AAPL" "buy" (int 10) ts)
              (MockBrokerConnector.submitOrder MockBrokerConnector.init 1
                 (TradeOrder.MarketOrder "AAPL" "buy" (int 10) ts) ts).1.2
              ts
              (MockBrokerConnector.submitOrder MockBrokerConnector.init 1
                 (TradeOrder.MarketOrder "AAPL" "buy" (int 10) ts) ts).2
              eq_refl) as (_ & Hpos & _).
  apply Hpos. discriminate.
Defined.

(** *** Runs of calls *)

Lemma submit_step (w w' : world) (o : oid) (now : string)
    (r : result OrderReceipt.t) :
  submit w o now = Some (w', r) ->
  exists ord ord',
    heap w !! o = Some ord /\
    heap w' = <[o := ord']> (heap w) /\
    MockBrokerConnector.submitOrder (broker w) o ord now = (broker w', ord', r).
Proof.
  unfold submit. destruct (heap w !! o) as [ord|]; [|discriminate].
  destruct (MockBrokerConnector.submitOrder _ _ _ _) as [[b1 o1] r1] eqn:Hs.
  intros [= <- <-]. by exists ord, o1.
Qed.

(** X14. After any run of [submitOrder] calls there is one result per
    call, and [getAccountInfo] shows the history before the run followed by
    orders of the run in call order: every call that returned a receipt is
    there, and nothing but calls of the run (a call that raised after
    [execute] is there too).  The market price is the one before the run,
    and the run has neither created nor dropped an order object. *)
Theorem run_extends_history (calls : list (oid * string)) :
  forall (w w' : world) (rs : list (result OrderReceipt.t)),
    submit_all w calls = Some (w', rs) ->
    List.length rs = List.length calls /\
    (exists app : list oid,
       MockBrokerConnector.info_order_history
         (MockBrokerConnector.getAccountInfo (broker w'))
         = (MockBrokerConnector.order_history (broker w) ++ app)%list /\
       sublist (returned_ids calls rs) app /\
       sublist app (calls.*1)) /\
    MockBrokerConnector.current_market_price (broker w')
      = MockBrokerConnector.current_market_price (broker w) /\
    dom (heap w') = dom (heap w).
Proof.
  induction calls as [|[o now] calls IH]; intros w w' rs; simpl.
  - intros [= <- <-]. simpl. split_and!; try done.
    exists []. by rewrite app_nil_r.
  - destruct (submit w o now) as [[w1 r]|] eqn:Hs; [|discriminate].
    destruct (submit_all w1 calls) as [[w2 rs']|] eqn:Ha; [|discriminate].
    intros [= <- <-].
    destruct (IH _ _ _ Ha) as (Hlen & (app & Hh & Hsub1 & Hsub2) & Hp & Hd).
    destruct (submit_step _ _ _ _ _ Hs) as (ord & ord' & Hord & Hheap & Hsub).
    destruct (submitOrder_frame _ _ _ _ _ _ _ Hsub) as (Hp1 & _ & Hh1 & Hret).
    simpl in *. split_and!.
    + by rewrite Hlen.
    + destruct r as [rc|x].
      * exists (o :: app). rewrite Hh, (Hret rc eq_refl), <- app_assoc.
        split_and!; [done|by apply sublist_skip|by apply sublist_skip].
      * destruct (TradeOrder.execute ord _).
        -- exists (o :: app). rewrite Hh, Hh1, <- app_assoc.
           split_and!; [done|by apply sublist_cons|by apply sublist_skip].
        -- exists app. rewrite Hh, Hh1, app_nil_r.
           split_and!; [done|done|by apply sublist_cons].
    + by rewrite Hp.
    + rewrite Hd, Hheap. apply dom_insert_lookup_L. by eexists.
Qed.

Lemma run_extends_history_witness :
  MockBrokerConnector.info_order_history
    (MockBrokerConnector.getAccountInfo
       (broker (default (one_order_world, [])
                  (submit_all one_order_world [(1%nat, ts); (1%nat, ts)])).1))
    = [1%nat; 1%nat].
Proof.
  destruct (run_extends_history [(1%nat, ts); (1%nat, ts)] one_order_world
              (default (one_order_world, [])
                 (submit_all one_order_world [(1%nat, ts); (1%nat, ts)])).1
              (default (one_order_world, [])
                 (submit_all one_order_world [(1%nat, ts); (1%nat, ts)])).2
              eq_refl) as (_ & (app & Hh & Hret & Hcalls) & _).
  rewrite Hh. change (app = [1%nat; 1%nat]).
  apply (anti_symm sublist); [exact Hcalls|].
  assert (Hids : returned_ids [(1%nat, ts); (1%nat, ts)]
                   (default (one_order_world, [])
                      (submit_all one_order_world [(1%nat, ts); (1%nat, ts)])).2
                 = [1%nat; 1%nat]) by (vm_compute; reflexivity).
  by rewrite Hids in Hret.
Defined.

(** ** The broker: limit orders *)

(** X17. A LimitOrder that fills is booked at its limit price, not at
    the market price: a BUY with limit [L] submitted while the market is at
    or below [L] is filled, and when the call returns it has taken
    [L * quantity] out of the cash; a SELL with limit [L] submitted while
    the market is at or above [L] is filled, and when the call returns it
    has added [L * quantity] to the cash; the receipt reports [L] as the
    executed price.  The arithmetic is Python's. *)
Theorem limit_order_books_at_limit (b : MockBrokerConnector.t) (id : oid)
    (o : TradeOrder.t) (now : string) (L : num) :
  TradeOrder.cls o = LimitOrder_cls ->
  TradeOrder.price o = Some L ->
  (TradeOrder.side o = "BUY" ->
   MockBrokerConnector.current_market_price b ≤ L ->
   exists b' r,
     MockBrokerConnector.submitOrder b id o now
       = (b', TradeOrder.set_status o filled, r) /\
     forall rc, r = Return rc ->
       OrderReceipt.executed_price rc = Some L /\
       exists cost,
         py_mul L (TradeOrder.quantity o) = Return cost /\
         py_sub (MockBrokerConnector.cash_balance b) cost
           = Return (MockBrokerConnector.cash_balance b')) /\
  (TradeOrder.side o = "SELL" ->
   L ≤ MockBrokerConnector.current_market_price b ->
   exists b' r,
     MockBrokerConnector.submitOrder b id o now
       = (b', TradeOrder.set_status o filled, r) /\
     forall rc, r = Return rc ->
       OrderReceipt.executed_price rc = Some L /\
       exists revenue,
         py_mul L (TradeOrder.quantity o) = Return revenue /\
         py_add (MockBrokerConnector.cash_balance b) revenue
           = Return (MockBrokerConnector.cash_balance b')).
Proof.
  intros Hc Hp. split; intros Hs Hle.
  - destruct (MockBrokerConnector.submitOrder b id o now) as [[b' o'] r] eqn:Hsub.
    exists b', r.
    assert (He : TradeOrder.execute o (MockBrokerConnector.current_market_price b)
                 = Return (TradeOrder.set_status o filled)).
    { rewrite (limit_execute_buy o _ L) by done.
      apply num_le_true in Hle. by rewrite Hle. }
    assert (Ho : o' = TradeOrder.set_status o filled).
    { revert Hsub. unfold MockBrokerConnector.submitOrder. rewrite He.
      destruct (MockBrokerConnector.settle _ _) as [b1 [[]|y]]; by intros [= _ <- _]. }
    subst o'. split; [done|]. intros rc ->.
    destruct (submitOrder_returns _ _ _ _ _ _ _ Hsub) as (_ & Hl & ->).
    split; [simpl; by rewrite Hp|].
    revert Hl. unfold MockBrokerConnector.settle. rewrite decide_True by done.
    cbn [TradeOrder.set_status TradeOrder.side]. rewrite Hs. simpl.
    intros Hl. destruct (book_returns _ _ _ _ _ _ Hl)
      as (pr & amount & q & Hpr & Hm & Hcash & _).
    simpl in Hpr. rewrite Hp in Hpr. injection Hpr as <-.
    exists amount. split; [exact Hm | exact Hcash].
  - destruct (MockBrokerConnector.submitOrder b id o now) as [[b' o'] r] eqn:Hsub.
    exists b', r.
    assert (He : TradeOrder.execute o (MockBrokerConnector.current_market_price b)
                 = Return (TradeOrder.set_status o filled)).
    { rewrite (limit_execute_sell o _ L) by done.
      apply num_ge_true in Hle. by rewrite Hle. }
    assert (Ho : o' = TradeOrder.set_status o filled).
    { revert Hsub. unfold MockBrokerConnector.submitOrder. rewrite He.
      destruct (MockBrokerConnector.settle _ _) as [b1 [[]|y]]; by intros [= _ <- _]. }
    subst o'. split; [done|]. intros rc ->.
    destruct (submitOrder_returns _ _ _ _ _ _ _ Hsub) as (_ & Hl & ->).
    split; [simpl; by rewrite Hp|].
    revert Hl. unfold MockBrokerConnector.settle. rewrite decide_True by done.
    cbn [TradeOrder.set_status TradeOrder.side]. rewrite Hs. simpl.
    intros Hl. destruct (book_returns _ _ _ _ _ _ Hl)
      as (pr & amount & q & Hpr & Hm & Hcash & _).
    simpl in Hpr. rewrite Hp in Hpr. injection Hpr as <-.
    exists amount. split; [exact Hm | exact Hcash].
Qed.

Lemma limit_order_books_at_limit_witness :
  exists b' rc,
    MockBrokerConnector.submitOrder MockBrokerConnector.init 3
      (TradeOrder.LimitOrder "GOOG" "buy" (int 10) (int 150) ts) ts
      = (b', TradeOrder.set_status
               (TradeOrder.LimitOrder "GOOG" "buy" (int 10) (int 150) ts) filled,
         Return rc) /\
    MockBrokerConnector.cash_balance b' = float 98500 /\
    OrderReceipt.executed_price rc = Some (int 150).
Proof.
  destruct (limit_order_books_at_limit MockBrokerConnector.init 3%nat
              (TradeOrder.LimitOrder "GOOG" "buy" (int 10) (int 150) ts) ts (int 150)
              eq_refl eq_refl) as [Hbuy _].
  destruct (Hbuy eq_refl ltac:(apply num_le_true; vm_compute; reflexivity))
    as (b' & r & Hsub & Hret).
  assert (Hr : r = Return (MockBrokerConnector.receipt_of 3%nat
                 (TradeOrder.set_status
                    (TradeOrder.LimitOrder "GOOG" "buy" (int 10) (int 150) ts) filled)
                 ts)).
  { apply (f_equal snd) in Hsub. cbn [snd] in Hsub. rewrite <- Hsub.
    vm_compute. reflexivity. }
  destruct (Hret _ Hr) as (Hprice & cost & Hm & Hcash).
  exists b', (MockBrokerConnector.receipt_of 3%nat
                (TradeOrder.set_status
                   (TradeOrder.LimitOrder "GOOG" "buy" (int 10) (int 150) ts) filled)
                ts).
  split; [by rewrite <- Hr|]. split; [|exact Hprice].
  assert (Hm' : py_mul (int 150)
                  (TradeOrder.quantity
                     (TradeOrder.LimitOrder "GOOG" "buy" (int 10) (int 150) ts))
                = Return (int 1500)) by (vm_compute; reflexivity).
  rewrite Hm' in Hm. injection Hm as <-.
  assert (Hc' : py_sub (MockBrokerConnector.cash_balance MockBrokerConnector.init)
                  (int 1500) = Return (float 98500)) by (vm_compute; reflexivity).
  rewrite Hc' in Hcash. by injection Hcash as <-.
Defined.

(** ** Orders with an unrecognised side *)

(** X18. A LimitOrder whose side is neither BUY nor SELL can never fill:
    [execute] returns it unchanged at every market price, without looking
    at the limit price (so it does not raise even when there is none), and
    [submitOrder] records it in the history and leaves cash and positions
    alone. *)
Theorem limit_unknown_side_never_fills (o : TradeOrder.t) :
  TradeOrder.cls o = LimitOrder_cls ->
  TradeOrder.side o <> "BUY" ->
  TradeOrder.side o <> "SELL" ->
  (forall p : num, TradeOrder.execute o p = Return o) /\
  (forall (b : MockBrokerConnector.t) (id : oid) (now : string),
     TradeOrder.status o <> filled ->
     MockBrokerConnector.submitOrder b id o now
       = (MockBrokerConnector.mk (MockBrokerConnector.cash_balance b)
            (MockBrokerConnector.positions b)
            (MockBrokerConnector.order_history b ++ [id])
            (MockBrokerConnector.current_market_price b),
          o, Return (MockBrokerConnector.receipt_of id o now))).
Proof.
  intros Hc Hb Hs.
  assert (He : forall p : num, TradeOrder.execute o p = Return o).
  { intros p. unfold TradeOrder.execute, TradeOrder.LimitOrder_execute. rewrite Hc.
    apply String.eqb_neq in Hb, Hs. by rewrite Hb, Hs. }
  split; [done|]. intros b id now Hnf.
  unfold MockBrokerConnector.submitOrder, MockBrokerConnector.settle.
  by rewrite He, decide_False.
Qed.

Lemma limit_unknown_side_never_fills_witness :
  TradeOrder.execute (TradeOrder.LimitOrder "GOOG" "hold" (int 10) (int 150) ts) (int 1)
    = Return (TradeOrder.LimitOrder "GOOG" "hold" (int 10) (int 150) ts).
Proof.
  destruct (limit_unknown_side_never_fills
              (TradeOrder.LimitOrder "GOOG" "hold" (int 10) (int 150) ts)
              eq_refl ltac:(discriminate) ltac:(discriminate)) as [He _].
  apply He.
Defined.
